(** * mcp-server-freecad: a shallow embedding of the tool server and of the
      RPC lifecycle, with the properties stated about them.

    The development follows the layout of the repository:

    - the Python values, exceptions and conversions the handlers rely on;
    - [FreeCAD]: the part of the host document API that [server.py] calls
      (documents, objects, placements, meshes).  The host is not code of the
      repository; what the handlers cannot observe is left abstract in the
      class [FreeCAD.Host];
    - the class [MCPServerFreeCAD] of [server.py]: its two fields, the private
      handlers, the registered tools and [handle_tool_call];
    - [Lifecycle]: [start_rpc_server] / [stop_rpc_server] of
      [comm_server/comm_server.py];
    - [Bridge]: the request queue pumped on the GUI thread.

    [server.py] names the module [FreeCAD] without importing it; the embedding
    takes the host module as bound, as the handlers assume. *)

From Stdlib Require Import PrimFloat.
From Stdlib Require SpecFloat FloatOps.
From Stdlib Require Import ZArith Ascii.
From stdpp Require Import base option list gmap strings pretty.

(** ** Python values *)

(** The values a tool argument can hold: the JSON-like universe of
    [Dict[str, Any]].  A [float] is an IEEE-754 binary64 number. *)
#[warnings="-register-all"]
Inductive PyVal :=
| VNone
| VBool (b : bool)
| VInt (i : Z)
| VFloat (f : float)
| VStr (s : string)
| VList (l : list PyVal)
| VDict (d : gmap string PyVal).

(** The exceptions the handlers and the host can raise.  All of them derive
    from Python's [Exception]; nothing in [server.py] raises a bare
    [BaseException] ([KeyboardInterrupt], [SystemExit], ...). *)
Inductive PyExc :=
| KeyError (key : string)
| TypeError (what : string)
| ValueError (what : string)
| AttributeError (what : string)
| OverflowError (what : string)
| ImportError (what : string)
| IndexError (what : string)
| OSError (what : string)
| FreeCADError (what : string).

Inductive Outcome (A : Type) :=
| Returned (a : A)
| Raised (e : PyExc).
Arguments Returned {A} a.
Arguments Raised {A} e.


Definition outcome_bind {A B} (o : Outcome A) (k : A → Outcome B) : Outcome B :=
  match o with
  | Returned a => k a
  | Raised e => Raised e
  end.

(** What the Python runtime prints and parses; only the shape of the text is
    left open, never the control flow. *)
Class PyRuntime := {
  (** [repr] of a float, as an f-string interpolates it *)
  repr_float : float → string;
  (** [str] of a list and of a dict *)
  str_list : list PyVal → string;
  str_dict : gmap string PyVal → string;
  (** [float("...")]: [None] when the text is not a number *)
  parse_float : string → option float;
  (** [str(e)] for the exceptions whose text the runtime or the host chooses *)
  exc_text : PyExc → string;
}.

Section Python.
Context `{PyRuntime}.

(** [str(v)], the interpolation of [v] in an f-string *)
Definition py_str (v : PyVal) : string :=
  match v with
  | VNone => "None"
  | VBool true => "True"
  | VBool false => "False"
  | VInt i => pretty i
  | VFloat f => repr_float f
  | VStr s => s
  | VList l => str_list l
  | VDict d => str_dict d
  end.

(** [str(e)]: a [KeyError] prints the [repr] of its key *)
Definition exc_str (e : PyExc) : string :=
  match e with
  | KeyError key => "'" +:+ key +:+ "'"
  | _ => exc_text e
  end.

(** [float(i)] for an [int]: the nearest double, ties to even;
    [OverflowError] when it is out of range *)
Definition float_of_int (i : Z) : Outcome float :=
  let f := FloatOps.SF2Prim (SpecFloat.binary_normalize 53 1024 i 0 false) in
  if is_infinity f then Raised (OverflowError "int too large to convert to float")
  else Returned f.

(** [float(v)] *)
Definition py_float (v : PyVal) : Outcome float :=
  match v with
  | VFloat f => Returned f
  | VInt i => float_of_int i
  | VBool b => Returned (if b then 1%float else 0%float)
  | VStr s =>
      match parse_float s with
      | Some f => Returned f
      | None => Raised (ValueError "could not convert string to float")
      end
  | _ => Raised (TypeError "float() argument must be a string or a real number")
  end.

(** [d[key]] on [args: Dict[str, Any]] *)
Definition item (d : gmap string PyVal) (key : string) : Outcome PyVal :=
  match d !! key with
  | Some v => Returned v
  | None => Raised (KeyError key)
  end.

(** [v[key]] on any value: only a dict can be indexed by a string *)
Definition subscript (v : PyVal) (key : string) : Outcome PyVal :=
  match v with
  | VDict d => item d key
  | VStr _ => Raised (TypeError "string indices must be integers")
  | VList _ => Raised (TypeError "list indices must be integers or slices")
  | _ => Raised (TypeError "object is not subscriptable")
  end.

(** [v.get(key, dflt)] on any value: only a dict has [get] *)
Definition get_or (v : PyVal) (key : string) (dflt : PyVal) : Outcome PyVal :=
  match v with
  | VDict d => Returned (default dflt (d !! key))
  | _ => Raised (AttributeError "object has no attribute 'get'")
  end.

(** [for name in v]: the elements the loop visits *)
Definition py_iter (v : PyVal) : Outcome (list PyVal) :=
  match v with
  | VList l => Returned l
  | VStr s => Returned ((λ c, VStr (String c EmptyString)) <$> String.list_ascii_of_string s)
  | VDict d => Returned (VStr <$> (map_to_list d).*1)
  | _ => Raised (TypeError "object is not iterable")
  end.

(** [a == "literal"] *)
Definition eq_str (v : PyVal) (s : string) : bool :=
  match v with
  | VStr t => String.eqb t s
  | _ => false
  end.
End Python.

(** ** The host: FreeCAD's document API as [server.py] uses it *)

Module FreeCAD.

Record Vector := mkVector { v_x : float; v_y : float; v_z : float }.

(** [FreeCAD.Rotation(axis, angle)]: the rotation about [axis] by [angle]
    degrees.  A fresh object carries the null rotation. *)
Inductive Rotation :=
| NullRotation
| AxisAngle (axis : Vector) (degrees : float).

Record Placement := mkPlacement { pl_Base : Vector; pl_Rotation : Rotation }.

(** The properties the handlers assign besides the placement: a dimension,
    or a link to another object of the document (its position in
    [Objects]). *)
Inductive Property :=
| Quantity (q : float)
| Link (target : nat).

Record DocumentObject := mkObject {
  obj_Name : string;
  obj_Label : string;
  obj_TypeId : string;
  obj_Placement : Placement;
  obj_Properties : gmap string Property;
}.

Record Document := mkDocument {
  doc_Name : string;
  Objects : list DocumentObject;
}.

Definition Facet : Type := Vector * Vector * Vector.
Definition Mesh : Type := list Facet.

(** What is written under a path. *)
Inductive FileData :=
| MeshFile (m : Mesh)
| DocumentFile (d : Document).

Definition is_letter (c : ascii) : bool :=
  let n := nat_of_ascii c in
  (((65 <=? n) && (n <=? 90)) || ((97 <=? n) && (n <=? 122)) || (n =? 95))%nat.

Definition is_digit (c : ascii) : bool :=
  let n := nat_of_ascii c in ((48 <=? n) && (n <=? 57))%nat.

(** An object name the host keeps as it is: a letter or underscore, then
    letters, digits and underscores. *)
Definition is_identifier (s : string) : bool :=
  match s with
  | EmptyString => false
  | String c rest =>
      is_letter c && forallb (λ a, is_letter a || is_digit a) (String.list_ascii_of_string rest)
  end.

(** The behaviour of the host that the handlers rely on without seeing it. *)
Class Host := {
  (** the name [addObject] gives an object asked for under [n] in a document
      whose names are [names] *)
  unique_name : list string → string → string;
  (** a free identifier is kept *)
  unique_name_kept : ∀ names n,
    is_identifier n = true → n ∉ names → unique_name names n = n;
  (** [obj.<prop> = v] for a length or radius: the stored value, or the
      exception of the property's own validation *)
  quantity_of : string → PyVal → Outcome float;
  (** [obj.Shape.tessellate(tolerance)] *)
  tessellate : DocumentObject → float → Outcome Mesh;
  (** whether [import Mesh] succeeds *)
  has_Mesh : bool;
  (** whether the host can write under a path *)
  writable : string → bool;
}.

Definition origin : Vector := mkVector 0 0 0.

Section API.
Context `{PyRuntime} `{Host}.

(** A number handed to a host constructor: floats and ints, no text. *)
Definition as_double (v : PyVal) : Outcome float :=
  match v with
  | VFloat f => Returned f
  | VInt i => float_of_int i
  | VBool b => Returned (if b then 1%float else 0%float)
  | _ => Raised (TypeError "must be real number")
  end.

(** [FreeCAD.Vector(a, b, c)] *)
Definition Vector_ (a b c : PyVal) : Outcome Vector :=
  outcome_bind (as_double a) (λ fa,
  outcome_bind (as_double b) (λ fb,
  outcome_bind (as_double c) (λ fc,
  Returned (mkVector fa fb fc)))).

(** [FreeCAD.newDocument(name)]: a document without objects *)
Definition newDocument (name : PyVal) : Outcome Document :=
  match name with
  | VStr n => Returned (mkDocument n [])
  | _ => Raised (TypeError "newDocument: argument 1 must be str")
  end.

Definition names (d : Document) : list string := obj_Name <$> Objects d.

(** [doc.getObject(name)]: the position of the object of that name in
    [doc.Objects], [None] when there is none.  A position stands for the
    reference Python holds: the handlers never delete an object. *)
Definition index_of (d : Document) (n : string) : option nat :=
  fst <$> list_find (λ o, obj_Name o = n) (Objects d).

Definition getObject (d : Document) (name : PyVal) : Outcome (option nat) :=
  match name with
  | VStr n => Returned (index_of d n)
  | _ => Raised (TypeError "getObject: argument 1 must be str")
  end.

(** [doc.addObject(type, name)]: the new object is last in [doc.Objects] *)
Definition addObject (d : Document) (type : string) (name : PyVal)
  : Outcome (nat * Document) :=
  match name with
  | VStr n =>
      let actual := unique_name (names d) n in
      let o := mkObject actual actual type (mkPlacement origin NullRotation) ∅ in
      Returned (length (Objects d), mkDocument (doc_Name d) (Objects d ++ [o]))
  | _ => Raised (TypeError "addObject: argument 2 must be str")
  end.

Definition update (d : Document) (ref : nat) (f : DocumentObject → DocumentObject)
  : Document :=
  mkDocument (doc_Name d) (alter f ref (Objects d)).

Definition with_Property (prop : string) (p : Property) (o : DocumentObject)
  : DocumentObject :=
  mkObject (obj_Name o) (obj_Label o) (obj_TypeId o) (obj_Placement o)
           (<[prop := p]> (obj_Properties o)).

Definition with_Placement (p : Placement) (o : DocumentObject) : DocumentObject :=
  mkObject (obj_Name o) (obj_Label o) (obj_TypeId o) p (obj_Properties o).

(** [obj.Placement.Base = v]: the host writes the changed placement back
    into the object *)
Definition with_Base (v : Vector) (o : DocumentObject) : DocumentObject :=
  with_Placement (mkPlacement v (pl_Rotation (obj_Placement o))) o.

(** [obj.<prop> = v] for a dimension *)
Definition set_quantity (d : Document) (ref : nat) (prop : string) (v : PyVal)
  : Outcome Document :=
  outcome_bind (quantity_of prop v) (λ q,
  Returned (update d ref (with_Property prop (Quantity q)))).

(** [doc.recompute()]: shapes are derived data; names, placements and
    properties stay *)
Definition recompute (d : Document) : Document := d.

(** [mesh.write(filepath)] and [doc.saveAs(filepath)] *)
Definition write_file (disk : gmap string FileData) (filepath : PyVal) (data : FileData)
  : Outcome (gmap string FileData) :=
  match filepath with
  | VStr p =>
      if writable p then Returned (<[p := data]> disk)
      else Raised (OSError "cannot write file")
  | _ => Raised (TypeError "argument 1 must be str")
  end.

(** [import Mesh] *)
Definition import_Mesh : Outcome unit :=
  if has_Mesh then Returned () else Raised (ImportError "No module named 'Mesh'").
End API.

End FreeCAD.

(** ** [server.py]: the class [MCPServerFreeCAD] *)

(** The two data fields of the class.  [self.server] and
    [self._registered_tools] hold the registration of the tools and are not
    read by any handler. *)
Record MCPServerFreeCAD := mkServer {
  active_body : option FreeCAD.DocumentObject;
  doc : option FreeCAD.Document;
}.

(** What a call can change: the server object and the files of the host. *)
Record World := mkWorld {
  self : MCPServerFreeCAD;
  disk : gmap string FreeCAD.FileData;
}.

(** [MCPServerFreeCAD.__init__] *)
Definition __init__ : MCPServerFreeCAD := mkServer None None.

(** A method body: it runs in a world, returns or raises, and leaves a world.
    What was assigned before an exception stays assigned. *)
Definition M (A : Type) : Type := World → Outcome A * World.

#[global] Instance M_ret : MRet M := λ _ a w, (Returned a, w).

#[global] Instance M_bind : MBind M := λ _ _ k m w,
  match m w with
  | (Returned a, w') => k a w'
  | (Raised e, w') => (Raised e, w')
  end.

Definition lift {A} (o : Outcome A) : M A := λ w, (o, w).

(** [try: body except Exception as e: handler(e)] *)
Definition try_except {A} (body : M A) (handler : PyExc → M A) : M A := λ w,
  match body w with
  | (Returned a, w') => (Returned a, w')
  | (Raised e, w') => handler e w'
  end.

(** [self.doc] *)
Definition get_doc : M (option FreeCAD.Document) := λ w, (Returned (doc (self w)), w).

(** [self.doc = d] *)
Definition set_doc (d : FreeCAD.Document) : M unit := λ w,
  (Returned (), mkWorld (mkServer (active_body (self w)) (Some d)) (disk w)).

(** A method of the document object [self.doc] refers to: its effect on the
    document is seen through [self.doc]. *)
Definition on_doc {A} (f : FreeCAD.Document → Outcome (A * FreeCAD.Document)) : M A := λ w,
  match doc (self w) with
  | Some d =>
      match f d with
      | Returned (a, d') => (Returned a, mkWorld (mkServer (active_body (self w)) (Some d')) (disk w))
      | Raised e => (Raised e, w)
      end
  | None => (Raised (AttributeError "'NoneType' object has no attribute"), w)
  end.

Definition read_doc {A} (f : FreeCAD.Document → Outcome A) : M A :=
  on_doc (λ d, outcome_bind (f d) (λ a, Returned (a, d))).

Definition change_doc (f : FreeCAD.Document → Outcome FreeCAD.Document) : M unit :=
  on_doc (λ d, outcome_bind (f d) (λ d', Returned ((), d'))).

(** The segment [TypeId.split("::")[-1]] keeps: what follows the last
    separator found from the left. *)
Fixpoint split_last (s acc : string) : string :=
  match s with
  | EmptyString => acc
  | String ":" (String ":" rest) => split_last rest EmptyString
  | String c rest => split_last rest (acc +:+ String c EmptyString)
  end.

(** ["::" in s] *)
Fixpoint has_sep (s : string) : bool :=
  match s with
  | String ":" (String ":" _) => true
  | String _ rest => has_sep rest
  | EmptyString => false
  end.

Definition newline : string := String (ascii_of_nat 10) EmptyString.

(** ["\n".join(lines)] *)
Fixpoint join_lines (lines : list string) : string :=
  match lines with
  | [] => EmptyString
  | [l] => l
  | l :: rest => l +:+ newline +:+ join_lines rest
  end.

Section Server.
Context `{PyRuntime} `{FreeCAD.Host}.

(** [len(self.doc.Objects)] *)
Definition count_objects : M nat :=
  read_doc (λ d, Returned (length (FreeCAD.Objects d))).

(** [self.doc.getObject(name)] *)
Definition doc_getObject (name : PyVal) : M (option nat) :=
  read_doc (λ d, FreeCAD.getObject d name).

(** [self.doc.addObject(type, name)] *)
Definition doc_addObject (type : string) (name : PyVal) : M nat :=
  on_doc (λ d, FreeCAD.addObject d type name).

(** [obj.<prop> = v] for a dimension of the object *)
Definition set_dimension (obj : nat) (prop : string) (v : PyVal) : M unit :=
  change_doc (λ d, FreeCAD.set_quantity d obj prop v).

(** [obj.<prop> = other] for a link to another object *)
Definition set_link (obj : nat) (prop : string) (other : nat) : M unit :=
  change_doc (λ d,
    Returned (FreeCAD.update d obj (FreeCAD.with_Property prop (FreeCAD.Link other)))).

(** [obj.Placement] *)
Definition get_Placement (obj : nat) : M FreeCAD.Placement :=
  read_doc (λ d,
    match FreeCAD.Objects d !! obj with
    | Some o => Returned (FreeCAD.obj_Placement o)
    | None => Raised (AttributeError "'NoneType' object has no attribute 'Placement'")
    end).

(** [obj.Placement.Base = v] *)
Definition set_Base (obj : nat) (v : FreeCAD.Vector) : M unit :=
  change_doc (λ d, Returned (FreeCAD.update d obj (FreeCAD.with_Base v))).

(** [obj.Placement = p] *)
Definition set_Placement (obj : nat) (p : FreeCAD.Placement) : M unit :=
  change_doc (λ d, Returned (FreeCAD.update d obj (FreeCAD.with_Placement p))).

(** [self.doc.recompute()] *)
Definition doc_recompute : M unit :=
  change_doc (λ d, Returned (FreeCAD.recompute d)).

(** [FreeCAD.Vector(position["x"], position["y"], position["z"])] *)
Definition position_vector (position : PyVal) : Outcome FreeCAD.Vector :=
  outcome_bind (subscript position "x") (λ px,
  outcome_bind (subscript position "y") (λ py,
  outcome_bind (subscript position "z") (λ pz,
  FreeCAD.Vector_ px py pz))).

(** the default [{"x": 0, "y": 0, "z": 0}] *)
Definition zero_position : PyVal :=
  VDict {[ "x" := VInt 0; "y" := VInt 0; "z" := VInt 0 ]}.

(** [if not self.doc: self.doc = FreeCAD.newDocument("Document")], the
    opening of every creator *)
Definition ensure_doc : M unit :=
  d ← get_doc;
  if d is None then
    nd ← lift (FreeCAD.newDocument (VStr "Document"));
    set_doc nd
  else mret ().

Definition _boolean_operation (args : gmap string PyVal) : M string :=
  d ← get_doc;
  if d is None then mret "No document available" else
  base_name ← lift (item args "base_object");
  operation ← lift (item args "operation");
  count ← count_objects;
  let result_name :=
    default (VStr (py_str operation +:+ "_" +:+ pretty count)) (args !! "result_name") in
  tool_name ← lift (item args "tool_object");
  base_obj ← doc_getObject base_name;
  tool_obj ← doc_getObject tool_name;
  match base_obj, tool_obj with
  | Some base, Some tool =>
      let finish (type : string) : M string :=
        result ← doc_addObject type result_name;
        set_link result "Base" base;;
        set_link result "Tool" tool;;
        doc_recompute;;
        mret ("Created " +:+ py_str operation +:+ " operation '"
              +:+ py_str result_name +:+ "'") in
      if eq_str operation "cut" then finish "Part::Cut"
      else if eq_str operation "intersection" then finish "Part::Common"
      else if eq_str operation "union" then finish "Part::Fuse"
      else mret ("Unknown operation: " +:+ py_str operation)
  | _, _ =>
      mret ("Could not find objects: " +:+ py_str base_name +:+ ", " +:+ py_str tool_name)
  end.

Definition _create_box (args : gmap string PyVal) : M string :=
  ensure_doc;;
  height ← lift (item args "height");
  length ← lift (item args "length");
  count ← count_objects;
  let name := default (VStr ("Box_" +:+ pretty count)) (args !! "name") in
  let position := default zero_position (args !! "position") in
  width ← lift (item args "width");
  box ← doc_addObject "Part::Box" name;
  set_dimension box "Height" height;;
  set_dimension box "Length" length;;
  base ← lift (position_vector position);
  set_Base box base;;
  set_dimension box "Width" width;;
  doc_recompute;;
  mret ("Created box '" +:+ py_str name +:+ "' with dimensions " +:+ py_str length
        +:+ "x" +:+ py_str width +:+ "x" +:+ py_str height +:+ "mm").

Definition _create_cylinder (args : gmap string PyVal) : M string :=
  ensure_doc;;
  height ← lift (item args "height");
  count ← count_objects;
  let name := default (VStr ("Cylinder_" +:+ pretty count)) (args !! "name") in
  let position := default zero_position (args !! "position") in
  radius ← lift (item args "radius");
  cylinder ← doc_addObject "Part::Cylinder" name;
  set_dimension cylinder "Height" height;;
  base ← lift (position_vector position);
  set_Base cylinder base;;
  set_dimension cylinder "Radius" radius;;
  doc_recompute;;
  mret ("Created cylinder '" +:+ py_str name +:+ "' with radius " +:+ py_str radius
        +:+ "mm and height " +:+ py_str height +:+ "mm").

Definition _create_document (args : gmap string PyVal) : M string :=
  let doc_name := default (VStr "Document") (args !! "name") in
  nd ← lift (FreeCAD.newDocument doc_name);
  set_doc nd;;
  mret ("Created document: " +:+ py_str doc_name).

Definition _create_sketch (args : gmap string PyVal) : M string :=
  ensure_doc;;
  mret ("Not implemented: " +:+ str_dict args).

Definition _create_sphere (args : gmap string PyVal) : M string :=
  ensure_doc;;
  count ← count_objects;
  let name := default (VStr ("Sphere_" +:+ pretty count)) (args !! "name") in
  let position := default zero_position (args !! "position") in
  radius ← lift (item args "radius");
  sphere ← doc_addObject "Part::Sphere" name;
  base ← lift (position_vector position);
  set_Base sphere base;;
  set_dimension sphere "Radius" radius;;
  doc_recompute;;
  mret ("Created sphere '" +:+ py_str name +:+ "' with radius " +:+ py_str radius +:+ "mm").

Definition _create_pad (args : gmap string PyVal) : M string :=
  ensure_doc;;
  mret ("Not implemented: create_pad " +:+ str_dict args).

Definition _create_pocket (args : gmap string PyVal) : M string :=
  ensure_doc;;
  mret ("Not implemented: create_pocket " +:+ str_dict args).

(** the loop [for name in object_names: obj = self.doc.getObject(name);
    if obj: objects.append(obj)] *)
Fixpoint resolve (object_names : list PyVal) : M (list nat) :=
  match object_names with
  | [] => mret []
  | name :: rest =>
      obj ← doc_getObject name;
      objects ← resolve rest;
      mret (if obj is Some o then o :: objects else objects)
  end.

(** the double written [0.1] *)
Definition tolerance : float := 0x1.999999999999ap-4%float.

(** [mesh = Mesh.Mesh(); mesh.addFacets(obj.Shape.tessellate(0.1))] *)
Definition mesh_of (obj : nat) : M FreeCAD.Mesh :=
  read_doc (λ d,
    match FreeCAD.Objects d !! obj with
    | Some o => FreeCAD.tessellate o tolerance
    | None => Raised (AttributeError "'NoneType' object has no attribute 'Shape'")
    end).

(** the loop [for obj in objects: ...; meshes.append(mesh)] *)
Fixpoint meshes_of (objects : list nat) : M (list FreeCAD.Mesh) :=
  match objects with
  | [] => mret []
  | obj :: rest =>
      mesh ← mesh_of obj;
      meshes ← meshes_of rest;
      mret (mesh :: meshes)
  end.

(** [mesh.write(filepath)] *)
Definition write_mesh (filepath : PyVal) (mesh : FreeCAD.Mesh) : M unit := λ w,
  match FreeCAD.write_file (disk w) filepath (FreeCAD.MeshFile mesh) with
  | Returned files => (Returned (), mkWorld (self w) files)
  | Raised e => (Raised e, w)
  end.

Definition _export_stl (args : gmap string PyVal) : M string :=
  d ← get_doc;
  if d is None then mret "No document available" else
  filepath ← lift (item args "filepath");
  object_names ← lift (item args "objects");
  names ← lift (py_iter object_names);
  objects ← resolve names;
  if bool_decide (0 < length objects) then
    lift FreeCAD.import_Mesh;;
    meshes ← meshes_of objects;
    match meshes with
    | [] => lift (Raised (IndexError "list index out of range"))
    | [mesh] => write_mesh filepath mesh
    | combined :: others => write_mesh filepath (foldl app combined others)
    end;;
    mret ("Exported " +:+ pretty (length objects) +:+ " objects to: " +:+ py_str filepath)
  else mret "No valid objects found for export".

(** [f"- {obj.Label} ({obj_type})"] *)
Definition object_line (o : FreeCAD.DocumentObject) : string :=
  let type_id := FreeCAD.obj_TypeId o in
  let obj_type := if has_sep type_id then split_last type_id EmptyString else type_id in
  "- " +:+ FreeCAD.obj_Label o +:+ " (" +:+ obj_type +:+ ")".

Definition _list_objects : M string :=
  d ← get_doc;
  match d with
  | None => mret "No document available"
  | Some d =>
      let objects := object_line <$> FreeCAD.Objects d in
      mret ("Objects in document:" +:+ newline +:+ join_lines objects)
  end.

(** [float(vec.get(key, dflt))] *)
Definition component (vec : PyVal) (key : string) (dflt : Z) : Outcome float :=
  outcome_bind (get_or vec key (VInt dflt)) py_float.

Definition _move_object (args : gmap string PyVal) : M string :=
  d ← get_doc;
  if d is None then mret "No document available" else
  object_name ← lift (item args "object_name");
  obj ← doc_getObject object_name;
  vec ← lift (item args "vector");
  match obj with
  | None => mret ("Object not found: " +:+ py_str object_name)
  | Some obj =>
      ox ← lift (component vec "x" 0);
      oy ← lift (component vec "y" 0);
      oz ← lift (component vec "z" 0);
      placement ← get_Placement obj;
      let current := FreeCAD.pl_Base placement in
      set_Base obj (FreeCAD.mkVector (FreeCAD.v_x current + ox)
                                     (FreeCAD.v_y current + oy)
                                     (FreeCAD.v_z current + oz));;
      doc_recompute;;
      mret ("Moved '" +:+ py_str object_name +:+ "' by (" +:+ repr_float ox +:+ ", "
            +:+ repr_float oy +:+ ", " +:+ repr_float oz +:+ ")")
  end.

Definition _rotate_object (args : gmap string PyVal) : M string :=
  d ← get_doc;
  if d is None then mret "No document available" else
  angle ← lift (outcome_bind (item args "angle") py_float);
  axis ← lift (item args "axis");
  object_name ← lift (item args "object_name");
  obj ← doc_getObject object_name;
  match obj with
  | None => mret ("Object not found: " +:+ py_str object_name)
  | Some obj =>
      ox ← lift (component axis "x" 0);
      oy ← lift (component axis "y" 0);
      oz ← lift (component axis "z" 1);
      placement ← get_Placement obj;
      let base := FreeCAD.pl_Base placement in
      let rotation := FreeCAD.AxisAngle (FreeCAD.mkVector ox oy oz) angle in
      set_Placement obj (FreeCAD.mkPlacement base rotation);;
      doc_recompute;;
      mret ("Rotated '" +:+ py_str object_name +:+ "' around axis (" +:+ repr_float ox
            +:+ ", " +:+ repr_float oy +:+ ", " +:+ repr_float oz +:+ ") by "
            +:+ repr_float angle +:+ " degrees")
  end.

(** [self.doc.saveAs(filepath)] *)
Definition doc_saveAs (filepath : PyVal) : M unit := λ w,
  match doc (self w) with
  | Some d =>
      match FreeCAD.write_file (disk w) filepath (FreeCAD.DocumentFile d) with
      | Returned files => (Returned (), mkWorld (self w) files)
      | Raised e => (Raised e, w)
      end
  | None => (Raised (AttributeError "'NoneType' object has no attribute 'saveAs'"), w)
  end.

Definition _save_document (args : gmap string PyVal) : M string :=
  d ← get_doc;
  if d is None then mret "No document available" else
  filepath ← lift (item args "filepath");
  doc_saveAs filepath;;
  mret ("Document saved to: " +:+ py_str filepath).

(** *** The dispatcher *)

(** the body of the [try] of [handle_tool_call] *)
Definition dispatch (tool_name : string) (arguments : gmap string PyVal) : M string :=
  if String.eqb tool_name "boolean_operation" then _boolean_operation arguments
  else if String.eqb tool_name "create_box" then _create_box arguments
  else if String.eqb tool_name "create_cylinder" then _create_cylinder arguments
  else if String.eqb tool_name "create_document" then _create_document arguments
  else if String.eqb tool_name "create_pad" then _create_pad arguments
  else if String.eqb tool_name "create_pocket" then _create_pocket arguments
  else if String.eqb tool_name "create_sketch" then _create_sketch arguments
  else if String.eqb tool_name "create_sphere" then _create_sphere arguments
  else if String.eqb tool_name "export_stl" then _export_stl arguments
  else if String.eqb tool_name "list_objects" then _list_objects
  else if String.eqb tool_name "move_object" then _move_object arguments
  else if String.eqb tool_name "rotate_object" then _rotate_object arguments
  else if String.eqb tool_name "save_document" then _save_document arguments
  else mret ("Unknown tool: " +:+ tool_name).

Definition handle_tool_call (tool_name : string) (arguments : gmap string PyVal) : M string :=
  try_except (dispatch tool_name arguments)
    (λ e, mret ("Error executing " +:+ tool_name +:+ ": " +:+ exc_str e)).

(** *** The registered tools of [setup_tools]

    Their parameters are typed: the framework hands a tool floats for
    [float], text for [str], and one of the listed words for a [Literal]. *)

Inductive Operation := op_cut | op_intersection | op_union.

Definition Operation_str (o : Operation) : string :=
  match o with
  | op_cut => "cut"
  | op_intersection => "intersection"
  | op_union => "union"
  end.

Inductive Plane := XY | XZ | YZ | custom.

Definition Plane_str (p : Plane) : string :=
  match p with
  | XY => "XY"
  | XZ => "XZ"
  | YZ => "YZ"
  | custom => "custom"
  end.

(** [if name is not None: args[key] = name] *)
Definition with_optional (key : string) (name : option string) (args : gmap string PyVal)
  : gmap string PyVal :=
  match name with
  | Some n => <[key := VStr n]> args
  | None => args
  end.

(** [{"x": x, "y": y, "z": z}] *)
Definition xyz (x y z : float) : PyVal :=
  VDict {[ "x" := VFloat x; "y" := VFloat y; "z" := VFloat z ]}.

Definition boolean_operation (operation : Operation) (base_object tool_object : string)
    (result_name : option string) : M string :=
  let args : gmap string PyVal :=
    {[ "operation" := VStr (Operation_str operation);
       "base_object" := VStr base_object;
       "tool_object" := VStr tool_object ]} in
  _boolean_operation (with_optional "result_name" result_name args).

Definition create_box (length width height x y z : float) (name : option string)
  : M string :=
  let args : gmap string PyVal :=
    {[ "length" := VFloat length;
       "width" := VFloat width;
       "height" := VFloat height;
       "position" := xyz x y z ]} in
  _create_box (with_optional "name" name args).

Definition create_cylinder (radius height x y z : float) (name : option string)
  : M string :=
  let args : gmap string PyVal :=
    {[ "radius" := VFloat radius;
       "height" := VFloat height;
       "position" := xyz x y z ]} in
  _create_cylinder (with_optional "name" name args).

Definition create_document (name : string) : M string :=
  _create_document {[ "name" := VStr name ]}.

Definition create_pad (sketch_name : string) (length : float) (reversed : bool)
    (name : option string) : M string :=
  let args : gmap string PyVal :=
    {[ "sketch_name" := VStr sketch_name;
       "length" := VFloat length;
       "reversed" := VBool reversed ]} in
  _create_pad (with_optional "name" name args).

Definition create_pocket (sketch_name : string) (length : float) (name : option string)
  : M string :=
  let args : gmap string PyVal :=
    {[ "sketch_name" := VStr sketch_name;
       "length" := VFloat length ]} in
  _create_pocket (with_optional "name" name args).

Definition create_sketch (plane : Plane) (name : option string) : M string :=
  let args : gmap string PyVal := {[ "plane" := VStr (Plane_str plane) ]} in
  _create_sketch (with_optional "name" name args).

Definition create_sphere (radius x y z : float) (name : option string) : M string :=
  let args : gmap string PyVal :=
    {[ "radius" := VFloat radius;
       "position" := xyz x y z ]} in
  _create_sphere (with_optional "name" name args).

Definition export_stl (objects : list string) (filepath : string) : M string :=
  _export_stl {[ "objects" := VList (VStr <$> objects); "filepath" := VStr filepath ]}.

Definition list_objects : M string := _list_objects.

Definition move_object (object_name : string) (x y z : float) : M string :=
  _move_object {[ "object_name" := VStr object_name; "vector" := xyz x y z ]}.

Definition rotate_object (object_name : string) (ax ay az angle : float) : M string :=
  _rotate_object
    {[ "object_name" := VStr object_name;
       "axis" := xyz ax ay az;
       "angle" := VFloat angle ]}.

Definition save_document (filepath : string) : M string :=
  _save_document {[ "filepath" := VStr filepath ]}.

(** *** Requests

    A request reaches the server through one of its registered tools or
    through [handle_tool_call]. *)
Inductive Request :=
| Call (tool_name : string) (arguments : gmap string PyVal)
| Boolean_operation (operation : Operation) (base_object tool_object : string)
    (result_name : option string)
| Create_box (length width height x y z : float) (name : option string)
| Create_cylinder (radius height x y z : float) (name : option string)
| Create_document (name : string)
| Create_pad (sketch_name : string) (length : float) (reversed : bool) (name : option string)
| Create_pocket (sketch_name : string) (length : float) (name : option string)
| Create_sketch (plane : Plane) (name : option string)
| Create_sphere (radius x y z : float) (name : option string)
| Export_stl (objects : list string) (filepath : string)
| List_objects
| Move_object (object_name : string) (x y z : float)
| Rotate_object (object_name : string) (ax ay az angle : float)
| Save_document (filepath : string).

Definition serve (r : Request) : M string :=
  match r with
  | Call tool_name arguments => handle_tool_call tool_name arguments
  | Boolean_operation operation base_object tool_object result_name =>
      boolean_operation operation base_object tool_object result_name
  | Create_box length width height x y z name => create_box length width height x y z name
  | Create_cylinder radius height x y z name => create_cylinder radius height x y z name
  | Create_document name => create_document name
  | Create_pad sketch_name length reversed name => create_pad sketch_name length reversed name
  | Create_pocket sketch_name length name => create_pocket sketch_name length name
  | Create_sketch plane name => create_sketch plane name
  | Create_sphere radius x y z name => create_sphere radius x y z name
  | Export_stl objects filepath => export_stl objects filepath
  | List_objects => list_objects
  | Move_object object_name x y z => move_object object_name x y z
  | Rotate_object object_name ax ay az angle => rotate_object object_name ax ay az angle
  | Save_document filepath => save_document filepath
  end.

(** the world after a sequence of requests: a request that raises is
    answered by the framework, and the server goes on with the next *)
Definition serve_all (rs : list Request) (w : World) : World :=
  foldl (λ w r, (serve r w).2) w rs.

(** the tool names whose handler opens by creating the missing document *)
Definition creators : list string :=
  ["create_box"; "create_cylinder"; "create_sphere";
   "create_sketch"; "create_pad"; "create_pocket"].

End Server.

(** ** A runtime and a host to run the handlers on concrete calls *)

(** A float that is a whole number below [10^16] prints as Python prints it
    ([2.0], [-30.0]); any other prints as mantissa and exponent. *)
Definition sample_repr_float (f : float) : string :=
  match FloatOps.Prim2SF f with
  | SpecFloat.S754_zero sign => if sign then "-0.0" else "0.0"
  | SpecFloat.S754_infinity sign => if sign then "-inf" else "inf"
  | SpecFloat.S754_nan => "nan"
  | SpecFloat.S754_finite sign m e =>
      let whole :=
        if (0 <=? e)%Z then Some (Z.pos m * 2 ^ e)%Z
        else if (Z.pos m mod 2 ^ (- e) =? 0)%Z then Some (Z.pos m / 2 ^ (- e))%Z
        else None in
      (if sign then "-" else EmptyString) +:+
      match whole with
      | Some n =>
          if (n <? 10 ^ 16)%Z then pretty n +:+ ".0"
          else pretty (Z.pos m) +:+ "*2**" +:+ pretty e
      | None => pretty (Z.pos m) +:+ "*2**" +:+ pretty e
      end
  end.

Definition sample_runtime : PyRuntime := {|
  repr_float := sample_repr_float;
  str_list := λ _, "[...]";
  str_dict := λ _, "{...}";
  parse_float := λ _, None;
  exc_text := λ e,
    match e with
    | KeyError what | TypeError what | ValueError what | AttributeError what
    | OverflowError what | ImportError what | IndexError what | OSError what
    | FreeCADError what => what
    end;
|}.

(** A host that numbers a taken name, stores any number as a dimension,
    gives every object a single facet at its base, and writes anywhere. *)
Definition sample_host : FreeCAD.Host := {|
  FreeCAD.unique_name := λ names n,
    match decide (n ∈ names) with
    | left _ => n +:+ "001"
    | right _ => n
    end;
  FreeCAD.unique_name_kept := λ names n _ free,
    match decide (n ∈ names) as taken
      return match taken with left _ => n +:+ "001" | right _ => n end = n
    with
    | left taken => False_ind _ (free taken)
    | right _ => eq_refl
    end;
  FreeCAD.quantity_of := λ _ v, FreeCAD.as_double v;
  FreeCAD.tessellate := λ o _,
    let base := FreeCAD.pl_Base (FreeCAD.obj_Placement o) in
    Returned [(base, base, base)];
  FreeCAD.has_Mesh := true;
  FreeCAD.writable := λ _, true;
|}.

(** the server as constructed, on an empty disk *)
Definition boot : World := mkWorld __init__ ∅.

(** ** [comm_server/comm_server.py]: starting and stopping the RPC listener *)

Module Lifecycle.

(** A [SimpleXMLRPCServer]: where it listens, and whether its
    [serve_forever] loop is running. *)
Record Listener := mkListener {
  l_host : string;
  l_port : Z;
  l_serving : bool;
}.

(** The two module globals, and what the process holds besides: every
    listener constructed and every thread started so far (a global refers
    to one by its position), the single shots of [process_gui_tasks] that
    were armed, and the console of the host. *)
Record Process := mkProcess {
  rpc_server_instance : option nat;
  rpc_server_thread : option nat;
  listeners : list Listener;
  threads : list bool;
  timers : nat;
  console : list string;
}.

(** the module as imported *)
Definition fresh : Process := mkProcess None None [] [] 0 [].


Section Lifecycle.
(** whether the system lets a listener bind the address *)
Variable can_listen : string → Z → bool.

Definition stop_serving (l : Listener) : Listener :=
  mkListener (l_host l) (l_port l) false.

Definition start_rpc_server (host : string) (port : Z) (p : Process)
  : Outcome string * Process :=
  match rpc_server_instance p with
  | Some _ => (Returned "RPC Server already running.", p)
  | None =>
      if can_listen host port then
        let address := host +:+ ":" +:+ pretty port in
        (* rpc_server_instance = SimpleXMLRPCServer((host, port), ...) *)
        let instance := length (listeners p) in
        (* rpc_server_thread = threading.Thread(target=server_loop, daemon=True);
           rpc_server_thread.start(): the loop prints and serves *)
        let thread := length (threads p) in
        (Returned ("RPC Server started at " +:+ address +:+ "."),
         mkProcess (Some instance) (Some thread)
                   (listeners p ++ [mkListener host port true])
                   (threads p ++ [true])
                   (* QtCore.QTimer.singleShot(500, process_gui_tasks) *)
                   (S (timers p))
                   (console p ++ ["RPC Server started at " +:+ address +:+ newline]))
      else (Raised (OSError "Address already in use"), p)
  end.

Definition stop_rpc_server (p : Process) : Outcome string * Process :=
  match rpc_server_instance p with
  | Some instance =>
      (* rpc_server_instance.shutdown() *)
      let stopped := alter stop_serving instance (listeners p) in
      match rpc_server_thread p with
      | Some thread =>
          (* rpc_server_thread.join() *)
          (Returned "RPC Server stopped.",
           mkProcess None None stopped (<[thread := false]> (threads p)) (timers p)
                     (console p ++ ["RPC Server stopped." +:+ newline]))
      | None =>
          (Raised (AttributeError "'NoneType' object has no attribute 'join'"),
           mkProcess (rpc_server_instance p) None stopped (threads p) (timers p)
                     (console p))
      end
  | None => (Returned "RPC Server was not running.", p)
  end.





End Lifecycle.


End Lifecycle.

(** ** The command bridge between the RPC thread and the GUI thread *)

Module Bridge.

(** Modelled from the spec: [comm_server/utils.py] ([request_queue],
    [response_queue], [process_gui_tasks]) and [comm_server/freecad_rpc.py]
    are imported by [comm_server.py] but are not among the sources.  A
    pending call is what the spec's data model lists, without the time of
    creation. *)
Record PendingCall := mkCall {
  call_id : nat;
  operation_name : string;
  arguments : gmap string PyVal;
}.

(** Modelled from the spec: the result of a call, as the data model of the
    spec lists it (the bridge itself is in the missing [utils.py]). *)
Inductive CallOutcome :=
| success (value : string)
| failure (message : string).

Record CallResult := mkResult {
  result_id : nat;
  outcome : CallOutcome;
}.

(** What the GUI thread did, in order. *)
Inductive Action :=
| Began (id : nat)
| Ended (id : nat).

(** Modelled from the spec: the threads of the process are the
    interleavings of these atomic events.  [Submit] is the first half of
    [submit] on some RPC thread (the call joins the queue and its
    submitter blocks); [Wake] and [Expire] are its second half (the
    submitter returns the result of its call, or gives up with
    [BridgeTimeout]).  [Tick], [Begin] and [Finish] are the GUI thread
    inside [drain_and_execute]: it takes the calls queued at that moment,
    then starts and ends them one after the other. *)
Inductive Event :=
| Submit (thread : nat) (name : string) (args : gmap string PyVal)
| Tick
| Begin
| Finish
| Wake (id : nat)
| Expire (id : nat).

(** the log of calls that ran one at a time: each ends before the next
    begins *)
Definition one_at_a_time (ids : list nat) : list Action :=
  ids ≫= λ id, [Began id; Ended id].

(** [l] without the first [id], when there is one *)
Fixpoint take_out (id : nat) (l : list nat) : option (list nat) :=
  match l with
  | [] => None
  | x :: rest =>
      if decide (x = id) then Some rest
      else cons x <$> take_out id rest
  end.

Section Bridge.
(** the state the operation executor works on, the executor, and the
    text it gives for an exception *)
Context {Store : Type}.
Variable execute : string → gmap string PyVal → Store → Outcome string * Store.
Variable describe : PyExc → string.

(** Modelled from the spec: what the bridge holds (the queues of the
    missing [utils.py]): the next call id, the queue of pending calls, the
    calls of the drain in progress, the call being executed, the calls
    started so far, the results pushed back, the ids of the blocked
    submitters, what submitters were handed, the log of the GUI thread and
    the store of the executor. *)
Record State := mkState {
  next_id : nat;
  queue : list PendingCall;
  batch : list PendingCall;
  running : option PendingCall;
  started : list PendingCall;
  results : list CallResult;
  waiting : list nat;
  received : list CallResult;
  log : list Action;
  store : Store;
}.

Definition init (s : Store) : State := mkState 0 [] [] None [] [] [] [] [] s.

(** an exception of the executor becomes the failure of that call *)
Definition capture (id : nat) (o : Outcome string) : CallResult :=
  match o with
  | Returned value => mkResult id (success value)
  | Raised e => mkResult id (failure (describe e))
  end.

(** Modelled from the spec: one event of the bridge, after the contracts
    of [submit] and [drain_and_execute] of section 4.1 (the files named
    above are missing).  An event that cannot happen in a state leaves
    it as it is. *)
Definition step (e : Event) (b : State) : State :=
  match e with
  | Submit _ name args =>
      let call := mkCall (next_id b) name args in
      mkState (S (next_id b)) (queue b ++ [call]) (batch b) (running b) (started b)
              (results b) (waiting b ++ [next_id b]) (received b) (log b) (store b)
  | Tick =>
      match batch b, running b with
      | [], None =>
          mkState (next_id b) [] (queue b) None (started b)
                  (results b) (waiting b) (received b) (log b) (store b)
      | _, _ => b
      end
  | Begin =>
      match running b, batch b with
      | None, call :: rest =>
          mkState (next_id b) (queue b) rest (Some call) (started b ++ [call])
                  (results b) (waiting b) (received b)
                  (log b ++ [Began (call_id call)]) (store b)
      | _, _ => b
      end
  | Finish =>
      match running b with
      | Some call =>
          let r := execute (operation_name call) (arguments call) (store b) in
          mkState (next_id b) (queue b) (batch b) None (started b)
                  (results b ++ [capture (call_id call) r.1]) (waiting b) (received b)
                  (log b ++ [Ended (call_id call)]) r.2
      | None => b
      end
  | Wake id =>
      match take_out id (waiting b), list_find (λ r, result_id r = id) (results b) with
      | Some rest, Some (_, r) =>
          mkState (next_id b) (queue b) (batch b) (running b) (started b)
                  (results b) rest (received b ++ [r]) (log b) (store b)
      | _, _ => b
      end
  | Expire id =>
      match take_out id (waiting b) with
      | Some rest =>
          mkState (next_id b) (queue b) (batch b) (running b) (started b)
                  (results b) rest (received b ++ [mkResult id (failure "BridgeTimeout")])
                  (log b) (store b)
      | None => b
      end
  end.

(** a schedule: the events in the order they happen *)
Definition run (evs : list Event) (b : State) : State := foldl (λ b e, step e b) b evs.

(** the calls a schedule submits, with the ids they get, in order *)
Fixpoint submissions (n : nat) (evs : list Event) : list PendingCall :=
  match evs with
  | [] => []
  | Submit _ name args :: rest => mkCall n name args :: submissions (S n) rest
  | _ :: rest => submissions n rest
  end.

(** the GUI thread runs [n] calls of its batch to their end *)
Definition execute_calls (n : nat) : list Event := concat (replicate n [Begin; Finish]).

(** Modelled from the spec: [drain_and_execute] as one uninterrupted pass
    of the GUI thread over the calls queued when it starts. *)
Definition drain_and_execute (b : State) : State :=
  run (Tick :: execute_calls (length (queue b))) b.

(** a schedule that brings a state to rest: the GUI thread ends what it
    runs and its batch, drains the queue once more, and every blocked
    submitter wakes *)
Definition settle (b : State) : list Event :=
  (if running b is Some _ then [Finish] else [])
  ++ execute_calls (length (batch b))
  ++ Tick :: execute_calls (length (queue b))
  ++ (Wake <$> waiting b).

Definition at_rest (b : State) : Prop :=
  queue b = [] ∧ batch b = [] ∧ running b = None ∧ waiting b = [].

(** the calls whose execution has ended, in the order they were started *)
Definition finished (b : State) : list PendingCall :=
  take (length (results b)) (started b).

(** the executor run on a list of calls, one after the other: the results,
    and the store at the end *)
Fixpoint replay (calls : list PendingCall) (s : Store) : list CallResult * Store :=
  match calls with
  | [] => ([], s)
  | call :: rest =>
      let r := execute (operation_name call) (arguments call) s in
      let rs := replay rest r.2 in
      (capture (call_id call) r.1 :: rs.1, rs.2)
  end.

(** the calls the bridge holds or has started, in the order it serves them *)
Definition pending (b : State) : list PendingCall :=
  started b ++ batch b ++ queue b.

(** what holds in every state the bridge reaches from [init s0] *)
Definition bridge_inv (s0 : Store) (b : State) : Prop :=
  call_id <$> (started b ++ batch b ++ queue b) = seq 0 (next_id b)
  ∧ started b = finished b ++ option_list (running b)
  ∧ (results b, store b) = replay (finished b) s0
  ∧ log b = one_at_a_time (result_id <$> results b)
            ++ ((Began ∘ call_id) <$> option_list (running b))
  ∧ waiting b ++ (result_id <$> received b) ≡ₚ seq 0 (next_id b).
End Bridge.

(** an event that submits nothing *)
Definition quiet (e : Event) : Prop :=
  match e with Submit _ _ _ => False | _ => True end.

End Bridge.

(** a document that holds one box, [A] *)
Definition only_A : World := Eval vm_compute in
  (create_box (H := sample_runtime) (H0 := sample_host) 1 2 3 0 0 0 (Some "A") boot).2.




(** ** What a method body leaves as it was *)

(** [keeps R m]: the world after [m], returned or raised, is [R]-related to
    the world before. *)
Definition keeps (R : relation World) {A} (m : M A) : Prop :=
  ∀ w, R w (m w).2.

(** A relation every handler keeps: it holds between a world and itself,
    composes, and survives the two writes a handler can make: giving
    [self.doc] a document, and putting a file on the disk. *)
Class Frame (R : relation World) := {
  frame_refl : ∀ w, R w w;
  frame_trans : ∀ w1 w2 w3, R w1 w2 → R w2 w3 → R w1 w3;
  frame_doc : ∀ w d, R w (mkWorld (mkServer (active_body (self w)) (Some d)) (disk w));
  frame_disk : ∀ w files, R w (mkWorld (self w) files);
}.

(** [active_body] is as before, and a document that was there is still
    there. *)
Definition stable (w w' : World) : Prop :=
  active_body (self w') = active_body (self w)
  ∧ (is_Some (doc (self w)) → is_Some (doc (self w'))).

(** the names of the objects of the document are as before *)
Definition same_names (w w' : World) : Prop :=
  (FreeCAD.names <$> doc (self w')) = (FreeCAD.names <$> doc (self w)).

(** [self.doc = d] seen from outside *)
Definition with_doc (d : FreeCAD.Document) (w : World) : World :=
  mkWorld (mkServer (active_body (self w)) (Some d)) (disk w).

(** the names of the objects of [self.doc]; none without a document *)
Definition object_names (w : World) : list string :=
  default [] (FreeCAD.names <$> doc (self w)).




(** [self.active_body = body] seen from outside *)
Definition with_body (body : option FreeCAD.DocumentObject) (w : World) : World :=
  mkWorld (mkServer body (doc (self w))) (disk w).

(** [oblivious m]: [m] does the same whatever [active_body] holds, and leaves
    it as it found it. *)
Definition oblivious {A} (m : M A) : Prop :=
  ∀ body w, m (with_body body w) = ((m w).1, with_body body (m w).2).

(** ** Groups of tools and further observers *)

(** the tool names [handle_tool_call] knows *)
Definition tool_names : list string :=
  ["boolean_operation"; "create_box"; "create_cylinder"; "create_document"; "create_pad";
   "create_pocket"; "create_sketch"; "create_sphere"; "export_stl"; "list_objects";
   "move_object"; "rotate_object"; "save_document"].

(** the tool names whose handler opens with [if not self.doc: return
    "No document available"] *)
Definition needs_document : list string :=
  ["boolean_operation"; "export_stl"; "list_objects"; "move_object"; "rotate_object";
   "save_document"].

(** the requests that reach [_create_document] *)
Definition replaces (r : Request) : bool :=
  match r with
  | Create_document _ => true
  | Call tool_name _ => String.eqb tool_name "create_document"
  | _ => false
  end.


(** the object type [_boolean_operation] asks [addObject] for *)
Definition operation_type (o : Operation) : string :=
  match o with
  | op_cut => "Part::Cut"
  | op_intersection => "Part::Common"
  | op_union => "Part::Fuse"
  end.



(** [obj.Shape.tessellate(0.1)] gives [mesh] for the object at a position *)
Definition tessellated `{FreeCAD.Host}
    (d : FreeCAD.Document) (obj : nat) (mesh : FreeCAD.Mesh) : Prop :=
  ∃ o, FreeCAD.Objects d !! obj = Some o
       ∧ FreeCAD.tessellate o tolerance = Returned mesh.


(** [atomic m]: when [m] raises, the world is as it was before *)
Definition atomic {A} (m : M A) : Prop :=
  ∀ w, match m w with
       | (Raised _, w') => w' = w
       | (Returned _, _) => True
       end.

(** [reads m]: [m] leaves the world as it was, returned or raised *)
Definition reads {A} (m : M A) : Prop := ∀ w, (m w).2 = w.

(** the objects there were are still there, under their names and at their
    positions in [doc.Objects] *)
Definition grows (w w' : World) : Prop :=
  object_names w `prefix_of` object_names w'.

(** the type tag [_list_objects] prints for a [TypeId] *)
Definition type_tag (type_id : string) : string :=
  if has_sep type_id then split_last type_id EmptyString else type_id.

(** ["::".join(segments)] *)
Fixpoint join_sep (segments : list string) : string :=
  match segments with
  | [] => EmptyString
  | [s] => s
  | s :: rest => s +:+ "::" +:+ join_sep rest
  end.

(** no [':'] in the text *)
Definition colon_free (s : string) : Prop :=
  Forall (λ c, c ≠ ":"%char) (String.list_ascii_of_string s).

(** * Properties *)

(** ** The monad of method bodies *)

Lemma bind_returned {A B} (m : M A) (k : A → M B) w a w' :
  m w = (Returned a, w') → (m ≫= k) w = k a w'.
Proof. intros E. unfold mbind, M_bind. by rewrite E. Qed.



Section Keeps.
Context (R : relation World).

Lemma keeps_ret {A} (a : A) : (∀ w, R w w) → keeps R (mret a).
Proof. intros Hrefl w. apply Hrefl. Qed.

Lemma keeps_lift {A} (o : Outcome A) : (∀ w, R w w) → keeps R (lift o).
Proof. intros Hrefl w. apply Hrefl. Qed.

Lemma keeps_get_doc : (∀ w, R w w) → keeps R get_doc.
Proof. intros Hrefl w. apply Hrefl. Qed.

Lemma keeps_bind {A B} (m : M A) (k : A → M B) :
  (∀ w1 w2 w3, R w1 w2 → R w2 w3 → R w1 w3) →
  keeps R m → (∀ a, keeps R (k a)) → keeps R (m ≫= k).
Proof.
  intros Htrans Hm Hk w. specialize (Hm w).
  unfold mbind, M_bind. destruct (m w) as [[a|e] w']; simpl in *; [|done].
  eapply Htrans; [exact Hm | apply Hk].
Qed.

Lemma keeps_try_except {A} (m : M A) (h : PyExc → M A) :
  (∀ w1 w2 w3, R w1 w2 → R w2 w3 → R w1 w3) →
  keeps R m → (∀ e, keeps R (h e)) → keeps R (try_except m h).
Proof.
  intros Htrans Hm Hh w. specialize (Hm w).
  unfold try_except. destruct (m w) as [[a|e] w']; simpl in *; [done|].
  eapply Htrans; [exact Hm | apply Hh].
Qed.

(** a method of the document keeps [R] when each of its results does *)
Lemma keeps_on_doc {A} (f : FreeCAD.Document → Outcome (A * FreeCAD.Document)) :
  (∀ w, R w w) →
  (∀ w d a d', doc (self w) = Some d → f d = Returned (a, d') →
     R w (mkWorld (mkServer (active_body (self w)) (Some d')) (disk w))) →
  keeps R (on_doc f).
Proof.
  intros Hrefl Hf w. unfold on_doc.
  destruct (doc (self w)) as [d|] eqn:Ed; [|apply Hrefl].
  destruct (f d) as [[a d']|e] eqn:Ef; simpl; [|apply Hrefl].
  by eapply Hf.
Qed.
End Keeps.

(** ** Every request keeps a frame *)

Section Framed.
Context `{PyRuntime} `{FreeCAD.Host} (R : relation World) `{!Frame R}.

Lemma framed_on_doc {A} (f : FreeCAD.Document → Outcome (A * FreeCAD.Document)) :
  keeps R (on_doc f).
Proof. apply keeps_on_doc; [apply frame_refl|]. intros. apply frame_doc. Qed.

Lemma framed_set_doc d : keeps R (set_doc d).
Proof. intros w. apply frame_doc. Qed.

Lemma framed_write_mesh filepath mesh : keeps R (write_mesh filepath mesh).
Proof.
  intros w. unfold write_mesh.
  destruct FreeCAD.write_file; simpl; [apply frame_disk | apply frame_refl].
Qed.

Lemma framed_saveAs filepath : keeps R (doc_saveAs filepath).
Proof.
  intros w. unfold doc_saveAs. destruct (doc (self w)); [|apply frame_refl].
  destruct FreeCAD.write_file; simpl; [apply frame_disk | apply frame_refl].
Qed.

Ltac framed :=
  repeat first
    [ apply keeps_ret; apply frame_refl
    | apply keeps_lift; apply frame_refl
    | apply keeps_get_doc; apply frame_refl
    | apply framed_on_doc
    | apply framed_set_doc
    | apply framed_write_mesh
    | apply framed_saveAs
    | apply keeps_bind; [apply frame_trans | | intros ?]
    | match goal with
      | |- keeps _ (match ?x with _ => _ end) => destruct x
      end ].

Lemma framed_ensure_doc : keeps R ensure_doc.
Proof. unfold ensure_doc. framed. Qed.

Lemma framed_resolve object_names : keeps R (resolve object_names).
Proof.
  induction object_names as [|name rest IH]; simpl; [framed|].
  unfold doc_getObject, read_doc. framed. exact IH.
Qed.

Lemma framed_meshes_of objects : keeps R (meshes_of objects).
Proof.
  induction objects as [|obj rest IH]; simpl; [framed|].
  unfold mesh_of, read_doc. framed. exact IH.
Qed.

Ltac handler :=
  unfold count_objects, doc_getObject, doc_addObject, set_dimension, set_link,
    get_Placement, set_Base, set_Placement, doc_recompute, read_doc, change_doc;
  cbv zeta;
  repeat first
    [ apply framed_ensure_doc
    | apply framed_resolve
    | apply framed_meshes_of
    | progress framed ].

Lemma framed_boolean_operation args : keeps R (_boolean_operation args).
Proof. unfold _boolean_operation. handler. Qed.

Lemma framed_create_box args : keeps R (_create_box args).
Proof. unfold _create_box. handler. Qed.

Lemma framed_create_cylinder args : keeps R (_create_cylinder args).
Proof. unfold _create_cylinder. handler. Qed.

Lemma framed_create_document args : keeps R (_create_document args).
Proof. unfold _create_document. handler. Qed.

Lemma framed_create_sketch args : keeps R (_create_sketch args).
Proof. unfold _create_sketch. handler. Qed.

Lemma framed_create_sphere args : keeps R (_create_sphere args).
Proof. unfold _create_sphere. handler. Qed.

Lemma framed_create_pad args : keeps R (_create_pad args).
Proof. unfold _create_pad. handler. Qed.

Lemma framed_create_pocket args : keeps R (_create_pocket args).
Proof. unfold _create_pocket. handler. Qed.

Lemma framed_export_stl args : keeps R (_export_stl args).
Proof. unfold _export_stl. handler. Qed.

Lemma framed_list_objects : keeps R _list_objects.
Proof. unfold _list_objects. handler. Qed.

Lemma framed_move_object args : keeps R (_move_object args).
Proof. unfold _move_object. handler. Qed.

Lemma framed_rotate_object args : keeps R (_rotate_object args).
Proof. unfold _rotate_object. handler. Qed.

Lemma framed_save_document args : keeps R (_save_document args).
Proof. unfold _save_document. handler. Qed.

Lemma framed_dispatch tool_name arguments : keeps R (dispatch tool_name arguments).
Proof.
  unfold dispatch.
  repeat match goal with
         | |- keeps _ (if ?b then _ else _) => destruct b
         end;
    auto using framed_boolean_operation, framed_create_box, framed_create_cylinder,
      framed_create_document, framed_create_sketch, framed_create_sphere,
      framed_create_pad, framed_create_pocket, framed_export_stl, framed_list_objects,
      framed_move_object, framed_rotate_object, framed_save_document.
  apply keeps_ret, frame_refl.
Qed.

Lemma framed_handle_tool_call tool_name arguments :
  keeps R (handle_tool_call tool_name arguments).
Proof.
  unfold handle_tool_call. apply keeps_try_except; [apply frame_trans| |].
  - apply framed_dispatch.
  - intros e. apply keeps_ret, frame_refl.
Qed.

Lemma framed_serve r : keeps R (serve r).
Proof.
  destruct r; simpl;
    unfold boolean_operation, create_box, create_cylinder, create_document, create_pad,
      create_pocket, create_sketch, create_sphere, export_stl, list_objects, move_object,
      rotate_object, save_document;
    auto using framed_handle_tool_call, framed_boolean_operation, framed_create_box,
      framed_create_cylinder, framed_create_document, framed_create_sketch,
      framed_create_sphere, framed_create_pad, framed_create_pocket, framed_export_stl,
      framed_list_objects, framed_move_object, framed_rotate_object, framed_save_document.
Qed.

Lemma framed_serve_all rs w : R w (serve_all rs w).
Proof.
  revert w. induction rs as [|r rs IH]; intros w; simpl; [apply frame_refl|].
  eapply frame_trans; [apply framed_serve | apply IH].
Qed.
End Framed.

#[global] Instance stable_frame : Frame stable.
Proof.
  split; unfold stable.
  - done.
  - intros w1 w2 w3 [E1 S1] [E2 S2]. split; [congruence | auto].
  - intros w d. simpl. eauto.
  - intros w files. simpl. done.
Qed.

(** ** [handle_tool_call] *)

(** C2: for every tool name and every arguments, [handle_tool_call] returns
    a string and never raises: when the handler it routes to raises [e], the
    string is ["Error executing <tool>: <str(e)>"], otherwise it is what the
    handler returned; the world is the one the handler left. *)
Theorem handle_tool_call_converts `{PyRuntime} `{FreeCAD.Host}
    (tool_name : string) (arguments : gmap string PyVal) (w : World) :
  ∃ text : string,
    handle_tool_call tool_name arguments w
      = (Returned text, (dispatch tool_name arguments w).2)
    ∧ text = match (dispatch tool_name arguments w).1 with
             | Returned r => r
             | Raised e => "Error executing " +:+ tool_name +:+ ": " +:+ exc_str e
             end.
Proof.
  unfold handle_tool_call, try_except.
  destruct (dispatch tool_name arguments w) as [[r|e] w']; simpl; eauto.
Qed.

(** a handler that does raise: [create_box] without its dimensions *)
Example handle_tool_call_missing_height :
  (handle_tool_call (H := sample_runtime) (H0 := sample_host) "create_box" ∅ boot).1
  = Returned "Error executing create_box: 'height'".
Proof. reflexivity. Qed.

(** ** The document handle *)

Section DocumentHandle.
Context `{PyRuntime} `{FreeCAD.Host}.




End DocumentHandle.



(** ** Running a handler step by step *)

Lemma with_doc_same w d : doc (self w) = Some d → with_doc d w = w.
Proof. destruct w as [[ab dd] files]. simpl. by intros ->. Qed.

Lemma lift_item `{PyRuntime} (args : gmap string PyVal) key v w :
  args !! key = Some v → lift (item args key) w = (Returned v, w).
Proof. intros E. unfold lift, item. by rewrite E. Qed.

Lemma on_doc_eval {A} (f : FreeCAD.Document → Outcome (A * FreeCAD.Document)) w d a d' :
  doc (self w) = Some d → f d = Returned (a, d') → on_doc f w = (Returned a, with_doc d' w).
Proof. intros Ed Ef. unfold on_doc. by rewrite Ed, Ef. Qed.

Lemma read_doc_eval {A} (f : FreeCAD.Document → Outcome A) w d a :
  doc (self w) = Some d → f d = Returned a → read_doc f w = (Returned a, w).
Proof.
  intros Ed Ef. unfold read_doc.
  erewrite on_doc_eval; [|done|by rewrite Ef]. by rewrite with_doc_same.
Qed.

Lemma change_doc_eval (f : FreeCAD.Document → Outcome FreeCAD.Document) w d d' :
  doc (self w) = Some d → f d = Returned d' → change_doc f w = (Returned (), with_doc d' w).
Proof. intros Ed Ef. unfold change_doc. erewrite on_doc_eval; [done|done|by rewrite Ef]. Qed.

Lemma getObject_eval `{PyRuntime} w d n :
  doc (self w) = Some d → doc_getObject (VStr n) w = (Returned (FreeCAD.index_of d n), w).
Proof. intros Ed. unfold doc_getObject. by eapply read_doc_eval. Qed.

Lemma count_objects_eval w d :
  doc (self w) = Some d → count_objects w = (Returned (length (FreeCAD.Objects d)), w).
Proof. intros Ed. unfold count_objects. by eapply read_doc_eval. Qed.

Lemma index_of_missing d n : n ∉ FreeCAD.names d → FreeCAD.index_of d n = None.
Proof.
  intros Hn. unfold FreeCAD.index_of.
  replace (list_find (λ o, FreeCAD.obj_Name o = n) (FreeCAD.Objects d)) with
    (@None (nat * FreeCAD.DocumentObject)); [done|].
  symmetry. apply list_find_None, Forall_forall. intros o Ho E.
  apply Hn. unfold FreeCAD.names. apply list_elem_of_fmap. eauto.
Qed.


(** ** [boolean_operation] on a missing object *)

(** C3: in a document that lacks the base object or the tool object,
    [_boolean_operation] returns ["Could not find objects: <base>, <tool>"]
    and leaves the world, so the objects of the document, as it was. *)
Theorem boolean_operation_missing_object `{PyRuntime} `{FreeCAD.Host}
    (args : gmap string PyVal) (operation : PyVal) (base tool : string)
    (w : World) (d : FreeCAD.Document) :
  doc (self w) = Some d →
  args !! "operation" = Some operation →
  args !! "base_object" = Some (VStr base) →
  args !! "tool_object" = Some (VStr tool) →
  base ∉ FreeCAD.names d ∨ tool ∉ FreeCAD.names d →
  _boolean_operation args w
  = (Returned ("Could not find objects: " +:+ base +:+ ", " +:+ tool), w).
Proof.
  intros Ed Eop Ebase Etool Hmissing. unfold _boolean_operation.
  erewrite bind_returned by reflexivity. rewrite Ed.
  erewrite bind_returned by (by apply lift_item).
  erewrite bind_returned by (by apply lift_item).
  erewrite bind_returned by (by apply count_objects_eval).
  cbv zeta.
  erewrite bind_returned by (by apply lift_item).
  erewrite bind_returned by (by apply getObject_eval).
  erewrite bind_returned by (by apply getObject_eval).
  destruct Hmissing as [Hb|Ht].
  - by rewrite (index_of_missing _ _ Hb).
  - rewrite (index_of_missing _ _ Ht). by destruct (FreeCAD.index_of d base).
Qed.

(** ** Names of the objects *)

Lemma names_update d i f :
  (∀ o, FreeCAD.obj_Name (f o) = FreeCAD.obj_Name o) →
  FreeCAD.names (FreeCAD.update d i f) = FreeCAD.names d.
Proof.
  intros Hf. unfold FreeCAD.names, FreeCAD.update. simpl.
  rewrite (list_fmap_alter _ f id); [by apply list_alter_id|].
  apply Forall_forall. intros o _. apply Hf.
Qed.

(** [getObject] looks at the names only *)
Lemma index_of_names d n :
  FreeCAD.index_of d n = fst <$> list_find (λ m, m = n) (FreeCAD.names d).
Proof.
  unfold FreeCAD.index_of, FreeCAD.names. rewrite list_find_fmap.
  by destruct (list_find _ _) as [[j o]|].
Qed.

Lemma same_names_refl w : same_names w w.
Proof. done. Qed.


Lemma same_names_change_doc (f : FreeCAD.Document → Outcome FreeCAD.Document) :
  (∀ d d', f d = Returned d' → FreeCAD.names d' = FreeCAD.names d) →
  keeps same_names (change_doc f).
Proof.
  intros Hf. apply keeps_on_doc; [apply same_names_refl|].
  intros w d [] d' Ed E. unfold same_names. simpl. rewrite Ed. simpl. f_equal.
  destruct (f d) as [d''|] eqn:Ef; simplify_eq/=. by apply Hf.
Qed.

Section SameNames.
Context `{PyRuntime} `{FreeCAD.Host}.

Lemma same_names_set_dimension obj prop v : keeps same_names (set_dimension obj prop v).
Proof.
  apply same_names_change_doc. intros d d'. unfold FreeCAD.set_quantity.
  destruct (FreeCAD.quantity_of prop v); intros; simplify_eq/=.
  by apply names_update.
Qed.

Lemma same_names_set_link obj prop other : keeps same_names (set_link obj prop other).
Proof.
  apply same_names_change_doc. intros d d' ?; simplify_eq. by apply names_update.
Qed.

Lemma same_names_set_Base obj v : keeps same_names (set_Base obj v).
Proof.
  apply same_names_change_doc. intros d d' ?; simplify_eq. by apply names_update.
Qed.

Lemma same_names_set_Placement obj p : keeps same_names (set_Placement obj p).
Proof.
  apply same_names_change_doc. intros d d' ?; simplify_eq. by apply names_update.
Qed.

Lemma same_names_recompute : keeps same_names doc_recompute.
Proof. apply same_names_change_doc. intros d d' ?; by simplify_eq. Qed.
End SameNames.


Lemma kept_names {A} (m : M A) w :
  keeps same_names m → object_names (m w).2 = object_names w.
Proof. intros Hm. unfold object_names. by rewrite (Hm w). Qed.





Section DefaultNames.
Context `{PyRuntime} `{FreeCAD.Host}.

(** after the opening of a creator there is a document, with the names
    there were *)
Lemma ensure_doc_eval w :
  ∃ d, ensure_doc w = (Returned (), with_doc d w)
       ∧ FreeCAD.names d = object_names w.
Proof.
  unfold ensure_doc, object_names.
  erewrite bind_returned by reflexivity.
  destruct (doc (self w)) as [d|] eqn:Ed; simpl.
  - exists d. by rewrite with_doc_same.
  - eexists. split; [reflexivity|done].
Qed.







End DefaultNames.


(** the three boxes on the sample host, with the texts returned *)
Example three_boxes_on_the_sample_host :
  let box := create_box (H := sample_runtime) (H0 := sample_host) 10 20 30 0 0 0 None in
  let r1 := box boot in
  let r2 := box r1.2 in
  let r3 := box r2.2 in
  r1.1 = Returned "Created box 'Box_0' with dimensions 10.0x20.0x30.0mm"
  ∧ r2.1 = Returned "Created box 'Box_1' with dimensions 10.0x20.0x30.0mm"
  ∧ r3.1 = Returned "Created box 'Box_2' with dimensions 10.0x20.0x30.0mm"
  ∧ object_names r3.2 = ["Box_0"; "Box_1"; "Box_2"].
Proof. vm_compute. done. Qed.

(** the missing tool object [B] of a cut of [A] *)
Lemma boolean_operation_missing_object_witness :
  boolean_operation (H := sample_runtime) (H0 := sample_host) op_cut "A" "B" None only_A
  = (Returned "Could not find objects: A, B", only_A).
Proof.
  unfold boolean_operation, with_optional.
  eapply (boolean_operation_missing_object (H := sample_runtime) (H0 := sample_host)
            _ _ "A" "B");
    [reflexivity|reflexivity|reflexivity|reflexivity|].
  right. unfold FreeCAD.names. simpl. rewrite list_elem_of_singleton. intros E. discriminate E.
Defined.

(** ** Moving and rotating an object *)

Lemma lift_returned {A} (o : Outcome A) a w : o = Returned a → lift o w = (Returned a, w).
Proof. by intros ->. Qed.



Section Placements.
Context `{PyRuntime}.



End Placements.









(** ** Exporting meshes *)

Section ExportMesh.
Context `{PyRuntime} `{FreeCAD.Host}.

(** the loop over the names resolves the ones the document has *)
Lemma resolve_eval (names : list string) w d :
  doc (self w) = Some d →
  resolve (VStr <$> names) w = (Returned (omap (FreeCAD.index_of d) names), w).
Proof.
  intros Ed. induction names as [|n rest IH]; [done|]. simpl.
  erewrite bind_returned by (by apply getObject_eval).
  erewrite bind_returned by exact IH.
  by destruct (FreeCAD.index_of d n).
Qed.

Lemma omap_found d (names : list string) :
  omap (FreeCAD.index_of d) (filter (λ n, n ∈ FreeCAD.names d) names)
  = omap (FreeCAD.index_of d) names.
Proof.
  induction names as [|n rest IH]; [done|].
  rewrite filter_cons. case_decide as Hn; csimpl; rewrite IH; [done|].
  by rewrite (index_of_missing _ _ Hn).
Qed.

Lemma omap_missing d (names : list string) :
  Forall (λ n, n ∉ FreeCAD.names d) names → omap (FreeCAD.index_of d) names = [].
Proof.
  induction 1 as [|n rest Hn _ IH]; [done|]. csimpl.
  by rewrite (index_of_missing _ _ Hn).
Qed.

(** [export_stl] up to the end of the loop *)
Lemma export_stl_resolved (objects : list string) filepath w d :
  doc (self w) = Some d →
  export_stl objects filepath w
  = (let resolved := omap (FreeCAD.index_of d) objects in
     if bool_decide (0 < length resolved) then
       lift FreeCAD.import_Mesh;;
       meshes ← meshes_of resolved;
       match meshes with
       | [] => lift (Raised (IndexError "list index out of range"))
       | [mesh] => write_mesh (VStr filepath) mesh
       | combined :: others => write_mesh (VStr filepath) (foldl app combined others)
       end;;
       mret ("Exported " +:+ pretty (length resolved) +:+ " objects to: " +:+ filepath)
     else mret "No valid objects found for export") w.
Proof.
  intros Ed. unfold export_stl, _export_stl.
  erewrite bind_returned by reflexivity. rewrite Ed.
  erewrite bind_returned by (by apply lift_item).
  erewrite bind_returned by (by apply lift_item).
  erewrite bind_returned by (by apply lift_returned).
  erewrite bind_returned by (by apply resolve_eval).
  reflexivity.
Qed.
End ExportMesh.

(** C7: with an active document, [export_stl] of names none of which is in
    the document (the empty list among them) returns ["No valid objects found
    for export"], a returned text and not an error, and leaves the world, so
    the disk, as it was; and for any list of names the call does what it does
    for the names of the list that are in the document, the others being
    skipped. *)
Theorem export_stl_skips_the_missing `{PyRuntime} `{FreeCAD.Host}
    (objects : list string) (filepath : string) (w : World) (d : FreeCAD.Document) :
  doc (self w) = Some d →
  Forall (λ n, n ∉ FreeCAD.names d) objects →
  export_stl objects filepath w = (Returned "No valid objects found for export", w)
  ∧ ∀ others : list string,
      export_stl others filepath w
      = export_stl (filter (λ n, n ∈ FreeCAD.names d) others) filepath w.
Proof.
  intros Ed Hmissing. split.
  - rewrite (export_stl_resolved _ _ _ _ Ed), omap_missing by done. reflexivity.
  - intros others. by rewrite !(export_stl_resolved _ _ _ _ Ed), omap_found.
Qed.

(** the empty list, and a name the document does not have *)
Lemma export_stl_skips_the_missing_witness :
  export_stl (H := sample_runtime) (H0 := sample_host) [] "out.stl" only_A
  = (Returned "No valid objects found for export", only_A)
  ∧ export_stl (H := sample_runtime) (H0 := sample_host) ["nope"; "A"] "out.stl" only_A
    = export_stl (H := sample_runtime) (H0 := sample_host) ["A"] "out.stl" only_A.
Proof.
  destruct (export_stl_skips_the_missing (H := sample_runtime) (H0 := sample_host)
              [] "out.stl" only_A _ eq_refl (Forall_nil_2 _)) as [Enone Eskip].
  split; [exact Enone | exact (Eskip ["nope"; "A"])].
Defined.

(** when an object resolves, the mesh is written *)
Example export_stl_writes_what_resolves :
  let r := export_stl (H := sample_runtime) (H0 := sample_host) ["nope"; "A"] "out.stl" only_A in
  r.1 = Returned "Exported 1 objects to: out.stl"
  ∧ is_Some (disk r.2 !! "out.stl")
  ∧ disk only_A !! "out.stl" = None.
Proof. vm_compute. eauto. Qed.

(** ** Starting and stopping the listener *)

(** C9: [start_rpc_server] and [stop_rpc_server] are idempotent.  While a
    listener is held, a start returns ["RPC Server already running."] and
    changes nothing (no second listener, no second thread), and a stop that
    returns has cleared both globals, so that the next stop finds nothing
    running.  While no listener is held, a stop returns ["RPC Server was not
    running."] without raising and changes nothing, and after a start that
    returns (one listener and one thread more) a second start reports the
    listener as running. *)
Theorem start_and_stop_are_idempotent
    (can_listen : string → Z → bool) (host : string) (port : Z) (p : Lifecycle.Process) :
  match Lifecycle.rpc_server_instance p with
  | Some _ =>
      Lifecycle.start_rpc_server can_listen host port p
      = (Returned "RPC Server already running.", p)
      ∧ match Lifecycle.stop_rpc_server p with
        | (Returned text, p') =>
            text = "RPC Server stopped."
            ∧ Lifecycle.rpc_server_instance p' = None
            ∧ Lifecycle.rpc_server_thread p' = None
            ∧ Lifecycle.stop_rpc_server p' = (Returned "RPC Server was not running.", p')
        | (Raised _, _) => Lifecycle.rpc_server_thread p = None
        end
  | None =>
      Lifecycle.stop_rpc_server p = (Returned "RPC Server was not running.", p)
      ∧ match Lifecycle.start_rpc_server can_listen host port p with
        | (Returned _, p1) =>
            Lifecycle.start_rpc_server can_listen host port p1
            = (Returned "RPC Server already running.", p1)
            ∧ length (Lifecycle.listeners p1) = S (length (Lifecycle.listeners p))
            ∧ length (Lifecycle.threads p1) = S (length (Lifecycle.threads p))
        | (Raised _, p1) => p1 = p
        end
  end.
Proof.
  destruct p as [instance thread listeners threads timers console]. simpl.
  destruct instance as [i|]; simpl.
  - split; [reflexivity|]. unfold Lifecycle.stop_rpc_server. simpl.
    destruct thread as [t|]; simpl; auto.
  - split; [reflexivity|]. unfold Lifecycle.start_rpc_server. simpl.
    destruct (can_listen host port); simpl; [|reflexivity].
    rewrite !length_app. simpl. repeat split; lia.
Qed.

(** the two commands of the workbench, started twice and stopped twice *)
Example start_twice_stop_twice :
  let start := Lifecycle.start_rpc_server (λ _ _, true) "localhost" 9875 in
  let p1 := (start Lifecycle.fresh).2 in
  let p2 := (Lifecycle.stop_rpc_server p1).2 in
  (start Lifecycle.fresh).1 = Returned "RPC Server started at localhost:9875."
  ∧ start p1 = (Returned "RPC Server already running.", p1)
  ∧ (Lifecycle.stop_rpc_server p1).1 = Returned "RPC Server stopped."
  ∧ Lifecycle.stop_rpc_server p2 = (Returned "RPC Server was not running.", p2)
  ∧ length (Lifecycle.listeners p2) = 1
  ∧ Lifecycle.threads p2 = [false].
Proof. vm_compute. done. Qed.

(** ** The command bridge *)

Section BridgeFacts.
Import Bridge.
Context {Store : Type}.
Variable execute : string → gmap string PyVal → Store → Outcome string * Store.
Variable describe : PyExc → string.

Abbreviation step := (Bridge.step execute describe).
Abbreviation run := (Bridge.run execute describe).
Abbreviation replay := (Bridge.replay execute describe).
Abbreviation bridge_inv := (Bridge.bridge_inv execute describe).

Lemma run_cons e evs (b : State) : run (e :: evs) b = run evs (step e b).
Proof. reflexivity. Qed.

Lemma run_app evs1 evs2 (b : State) : run (evs1 ++ evs2) b = run evs2 (run evs1 b).
Proof. unfold Bridge.run. apply foldl_app. Qed.

Lemma result_id_capture id o : result_id (capture describe id o) = id.
Proof. by destruct o. Qed.

Lemma replay_snoc calls call s :
  replay (calls ++ [call]) s
  = let rs := replay calls s in
    let r := execute (operation_name call) (arguments call) rs.2 in
    (rs.1 ++ [capture describe (call_id call) r.1], r.2).
Proof.
  revert s. induction calls as [|c rest IH]; intros s; simpl; [done|].
  by rewrite IH.
Qed.

Lemma replay_ids calls s : result_id <$> (replay calls s).1 = call_id <$> calls.
Proof.
  revert s. induction calls as [|c rest IH]; intros s; simpl; [done|].
  by rewrite result_id_capture, IH.
Qed.

Lemma one_at_a_time_snoc ids id :
  one_at_a_time (ids ++ [id]) = one_at_a_time ids ++ [Began id; Ended id].
Proof. unfold one_at_a_time. by rewrite bind_app. Qed.

Lemma take_out_Permutation id l rest : take_out id l = Some rest → l ≡ₚ id :: rest.
Proof.
  revert rest. induction l as [|x l IH]; intros rest; simpl; [done|].
  case_decide as Hx.
  - intros [= <-]. by subst.
  - destruct (take_out id l) as [rest'|]; simpl; [|done].
    intros [= <-]. rewrite (IH rest' eq_refl). apply Permutation_swap.
Qed.

Lemma bridge_inv_init s0 : bridge_inv s0 (init s0).
Proof. by repeat split. Qed.

Lemma finished_length s0 (b : State) :
  (results b, store b) = replay (finished b) s0 → length (finished b) = length (results b).
Proof.
  intros E. apply (f_equal (λ p, length (result_id <$> p.1))) in E. simpl in E.
  rewrite replay_ids, !length_fmap in E. done.
Qed.

Ltac bridge_fields :=
  cbn [next_id queue batch running started results waiting received log store] in *.

Lemma bridge_inv_step s0 e (b : State) : bridge_inv s0 b → bridge_inv s0 (step e b).
Proof.
  intros (Hids & Hstarted & Hreplay & Hlog & Hwait).
  pose proof (finished_length _ _ Hreplay) as Hlen.
  unfold Bridge.bridge_inv, finished in *.
  destruct e as [thread name args| | | |id|id]; cbn [Bridge.step].
  - (* Submit *)
    bridge_fields. repeat split; try done.
    + rewrite !(assoc_L (++)), fmap_app, <- (assoc_L (++)), Hids.
      by rewrite seq_S.
    + rewrite seq_S, <- Hwait, <- !(assoc_L (++)).
      apply Permutation_app_head, Permutation_app_comm.
  - (* Tick *)
    destruct (batch b) as [|c rest] eqn:Eb; [|by rewrite Eb].
    destruct (running b) as [c|] eqn:Er; [by rewrite Eb, Er|].
    bridge_fields. repeat split; try done.
    by rewrite app_nil_r, <- Hids.
  - (* Begin *)
    destruct (running b) as [c|] eqn:Er; [by rewrite Er|].
    destruct (batch b) as [|call rest] eqn:Eb; [by rewrite Eb, Er|].
    bridge_fields. simpl in Hstarted, Hlog. rewrite app_nil_r in Hstarted, Hlog.
    assert (take (length (results b)) (started b ++ [call]) = started b) as Efin.
    { rewrite <- Hstarted in Hlen. rewrite <- Hlen. apply take_app_length. }
    rewrite Efin. repeat split; try done.
    + by rewrite <- Hids, <- !(assoc_L (++)).
    + by rewrite Hstarted.
    + by rewrite Hlog.
  - (* Finish *)
    destruct (running b) as [call|] eqn:Er; [|by rewrite Er].
    bridge_fields. simpl in Hstarted, Hlog.
    assert (take (length (results b ++ [capture describe (call_id call)
                    (execute (operation_name call) (arguments call) (store b)).1]))
                 (started b)
            = take (length (results b)) (started b) ++ [call]) as Efin.
    { rewrite length_app. simpl. rewrite Hstarted at 1.
      rewrite take_app_ge by (rewrite Hlen; lia). rewrite Hlen.
      replace (length (results b) + 1 - length (results b)) with 1 by lia. done. }
    rewrite Efin. repeat split; try done.
    + simpl. by rewrite app_nil_r.
    + by rewrite replay_snoc, <- Hreplay.
    + rewrite fmap_app, Hlog. simpl.
      by rewrite one_at_a_time_snoc, result_id_capture, app_nil_r, <- (assoc_L (++)).
  - (* Wake *)
    destruct (take_out id (waiting b)) as [rest|] eqn:Et; [|done].
    destruct (list_find _ (results b)) as [[j r]|] eqn:Ef; [|done].
    apply list_find_Some in Ef as (_ & Hr & _).
    bridge_fields. repeat split; try done.
    rewrite fmap_app. simpl. rewrite Hr, <- Hwait, (take_out_Permutation _ _ _ Et).
    rewrite (assoc_L (++)). symmetry. apply Permutation_cons_append.
  - (* Expire *)
    destruct (take_out id (waiting b)) as [rest|] eqn:Et; [|done].
    bridge_fields. repeat split; try done.
    rewrite fmap_app. simpl. rewrite <- Hwait, (take_out_Permutation _ _ _ Et).
    rewrite (assoc_L (++)). symmetry. apply Permutation_cons_append.
Qed.

Lemma bridge_inv_run s0 evs (b : State) : bridge_inv s0 b → bridge_inv s0 (run evs b).
Proof.
  revert b. induction evs as [|e evs IH]; intros b Hb; [done|].
  rewrite run_cons. by apply IH, bridge_inv_step.
Qed.
Lemma pending_run evs (b : State) :
  pending (run evs b) = pending b ++ submissions (next_id b) evs.
Proof.
  revert b. induction evs as [|e evs IH]; intros b; [by rewrite app_nil_r|].
  rewrite run_cons, IH. unfold pending.
  destruct e as [thread name args| | | |id|id]; cbn [Bridge.step submissions].
  - bridge_fields. by rewrite <- !(assoc_L (++)).
  - destruct (batch b) as [|c rest] eqn:Eb; [|by rewrite Eb].
    destruct (running b) eqn:Er; [by rewrite Eb|].
    bridge_fields. by rewrite app_nil_r.
  - destruct (running b) eqn:Er; [done|].
    destruct (batch b) as [|call rest] eqn:Eb; [by rewrite Eb|].
    bridge_fields. by rewrite <- !(assoc_L (++)).
  - by destruct (running b).
  - destruct (take_out id (waiting b)); [|done].
    by destruct (list_find _ (results b)) as [[j r]|].
  - by destruct (take_out id (waiting b)).
Qed.

Lemma submissions_quiet n evs : Forall quiet evs → submissions n evs = [].
Proof. induction 1 as [|[] evs He _ IH]; done. Qed.

Lemma submissions_app_quiet n evs1 evs2 :
  Forall quiet evs2 → submissions n (evs1 ++ evs2) = submissions n evs1.
Proof.
  intros Hq. revert n. induction evs1 as [|e evs1 IH]; intros n; simpl.
  - by apply submissions_quiet.
  - destruct e; by rewrite IH.
Qed.

Lemma execute_calls_S n : execute_calls (S n) = Begin :: Finish :: execute_calls n.
Proof. reflexivity. Qed.

Lemma quiet_execute_calls n : Forall quiet (execute_calls n).
Proof.
  induction n as [|n IH]; [constructor|].
  rewrite execute_calls_S. by repeat constructor.
Qed.

Lemma quiet_settle (b : @State Store) : Forall quiet (settle b).
Proof.
  unfold settle. repeat first [apply Forall_app; split | apply Forall_cons; split].
  - destruct (running b); by repeat constructor.
  - apply quiet_execute_calls.
  - done.
  - apply quiet_execute_calls.
  - apply Forall_fmap, Forall_forall. done.
Qed.

(** the GUI thread runs its batch to the end *)
Lemma run_execute_calls n (b : State) :
  length (batch b) = n → running b = None →
  let b' := run (execute_calls n) b in
  running b' = None ∧ batch b' = [] ∧ queue b' = queue b ∧ waiting b' = waiting b.
Proof.
  revert b. induction n as [|n IH]; intros b Hlen Hrun.
  - simpl. by destruct (batch b).
  - destruct (batch b) as [|call rest] eqn:Eb; [done|].
    cbv zeta. rewrite execute_calls_S, !run_cons.
    cbn [Bridge.step]. rewrite Hrun, Eb. cbn [Bridge.step]. bridge_fields.
    match goal with |- context [ run _ ?b1 ] => specialize (IH b1) end.
    bridge_fields. destruct IH as (? & ? & ? & ?); [by simplify_eq/=|done|].
    done.
Qed.

(** the blocked submitters wake one after the other *)
Lemma run_wake_all ws (b : State) :
  waiting b = ws →
  (∀ id, id ∈ ws → id ∈ result_id <$> results b) →
  let b' := run (Wake <$> ws) b in
  waiting b' = [] ∧ running b' = running b ∧ batch b' = batch b ∧ queue b' = queue b.
Proof.
  revert b. induction ws as [|id ws IH]; intros b Hws Hres; [done|].
  rewrite fmap_cons, run_cons. cbn [Bridge.step]. rewrite Hws. simpl.
  rewrite decide_True by done.
  destruct (list_find (λ r, result_id r = id) (results b)) as [[j r]|] eqn:Ef.
  - match goal with |- context [ run _ ?b1 ] => specialize (IH b1) end.
    bridge_fields. apply IH; [done|]. intros id' Hid'. apply Hres. by right.
  - exfalso. apply list_find_None in Ef.
    assert (id ∈ result_id <$> results b) as Hin by (apply Hres; left).
    apply list_elem_of_fmap in Hin as (r & -> & Hr).
    by apply (proj1 (Forall_forall _ _) Ef r Hr).
Qed.

(** a pass of the GUI thread that starts idle serves the calls queued at
    that moment, all of them, and wakes nobody *)
Lemma drain_and_execute_empties_the_queue (b : State) :
  running b = None → batch b = [] →
  let b' := drain_and_execute execute describe b in
  running b' = None ∧ batch b' = [] ∧ queue b' = [] ∧ waiting b' = waiting b.
Proof.
  intros Hr Hb. unfold drain_and_execute. cbv zeta. rewrite run_cons.
  set (b1 := step Tick b).
  assert (running b1 = None ∧ batch b1 = queue b ∧ queue b1 = [] ∧ waiting b1 = waiting b)
    as (Hr1 & Hb1 & Hq1 & Hw1) by (by unfold b1; cbn [Bridge.step]; rewrite Hb, Hr).
  rewrite <- Hb1.
  destruct (run_execute_calls _ b1 eq_refl Hr1) as (Hr2 & Hb2 & Hq2 & Hw2).
  by rewrite Hr2, Hb2, Hq2, Hw2.
Qed.

(** every reachable state can be brought to rest *)
Lemma settle_at_rest s0 (b : State) :
  bridge_inv s0 b → at_rest (run (settle b) b).
Proof.
  intros Hinv. unfold settle. rewrite !run_app, run_cons, run_app.
  set (b1 := run (if running b is Some _ then [Finish] else []) b).
  assert (running b1 = None ∧ batch b1 = batch b ∧ queue b1 = queue b
          ∧ waiting b1 = waiting b) as (Hr1 & Hb1 & Hq1 & Hw1).
  { unfold b1. destruct (running b) as [c|] eqn:Er; [|done].
    simpl. by rewrite Er. }
  assert (bridge_inv s0 b1) as Hinv1 by by apply bridge_inv_run.
  rewrite <- Hb1.
  destruct (run_execute_calls _ b1 eq_refl Hr1) as (Hr2 & Hb2 & Hq2 & Hw2).
  set (b2 := run (execute_calls (length (batch b1))) b1) in *.
  assert (bridge_inv s0 b2) as Hinv2 by by apply bridge_inv_run.
  set (b3 := step Tick b2).
  assert (running b3 = None ∧ batch b3 = queue b ∧ queue b3 = []
          ∧ waiting b3 = waiting b) as (Hr3 & Hb3 & Hq3 & Hw3).
  { unfold b3. cbn [Bridge.step]. rewrite Hb2, Hr2. bridge_fields.
    by rewrite Hq2, Hq1, Hw2, Hw1. }
  assert (bridge_inv s0 b3) as Hinv3 by by apply bridge_inv_step.
  rewrite <- Hb3.
  destruct (run_execute_calls _ b3 eq_refl Hr3) as (Hr4 & Hb4 & Hq4 & Hw4).
  set (b4 := run (execute_calls (length (batch b3))) b3) in *.
  assert (bridge_inv s0 b4) as Hinv4 by by apply bridge_inv_run.
  rewrite <- Hw3, <- Hw4.
  destruct (run_wake_all (waiting b4) b4 eq_refl) as (Hw5 & Hr5 & Hb5 & Hq5).
  { destruct Hinv4 as (Hids & Hstarted & Hreplay & _ & Hwait).
    rewrite Hb4, Hq4, Hq3 in Hids. simpl in Hids. rewrite app_nil_r in Hids.
    rewrite Hr4 in Hstarted. simpl in Hstarted. rewrite app_nil_r in Hstarted.
    apply (f_equal (λ p, result_id <$> p.1)) in Hreplay. simpl in Hreplay.
    rewrite replay_ids, <- Hstarted, Hids in Hreplay. rewrite Hreplay.
    intros id Hid. rewrite <- Hwait. apply elem_of_app. by left. }
  unfold at_rest. by rewrite Hq5, Hb5, Hr5, Hw5, Hq4, Hq3, Hb4, Hr4.
Qed.
End BridgeFacts.

(** C1: whatever the threads submit and however their submissions
    interleave with the GUI thread, in every state [b] the bridge reaches:
    the calls started, in the batch and in the queue are, in this order, the
    calls submitted, in the order they were submitted (first in, first out);
    the calls started are the finished ones and at most one that is running,
    and the log of the GUI thread shows each call ended before the next
    began; the results are those of the executor run on the finished calls
    one after the other, one result per call in the order of execution, a
    failure where the executor raised; the ids of the calls are distinct,
    and each is either still waited for or has been handed exactly one
    result.  And the schedule [settle b] brings the bridge to rest, where
    every call submitted has its result and every submitter has received
    exactly one. *)
Theorem bridge_serves_in_order_once_each {Store : Type}
    (execute : string → gmap string PyVal → Store → Outcome string * Store)
    (describe : PyExc → string) (evs : list Bridge.Event) (s0 : Store) :
  let b := Bridge.run execute describe evs (Bridge.init s0) in
  let b' := Bridge.run execute describe (Bridge.settle b) b in
  let ids := Bridge.call_id <$> Bridge.submissions 0 evs in
  Bridge.started b ++ Bridge.batch b ++ Bridge.queue b = Bridge.submissions 0 evs
  ∧ Bridge.started b = Bridge.finished b ++ option_list (Bridge.running b)
  ∧ Bridge.log b
    = Bridge.one_at_a_time (Bridge.call_id <$> Bridge.finished b)
      ++ ((Bridge.Began ∘ Bridge.call_id) <$> option_list (Bridge.running b))
  ∧ (Bridge.results b, Bridge.store b)
    = Bridge.replay execute describe (Bridge.finished b) s0
  ∧ NoDup ids
  ∧ Bridge.waiting b ++ (Bridge.result_id <$> Bridge.received b) ≡ₚ ids
  ∧ Bridge.at_rest b'
  ∧ Bridge.result_id <$> Bridge.results b' = ids
  ∧ Bridge.result_id <$> Bridge.received b' ≡ₚ ids.
Proof.
  intros b b' ids.
  pose proof (bridge_inv_run execute describe s0 evs _
                (bridge_inv_init execute describe s0)) as Hinv.
  fold b in Hinv.
  pose proof (bridge_inv_run execute describe s0 (Bridge.settle b) _ Hinv) as Hinv'.
  fold b' in Hinv'.
  pose proof (settle_at_rest execute describe s0 b Hinv) as Hrest. fold b' in Hrest.
  pose proof (pending_run execute describe evs (Bridge.init s0)) as Hpending.
  fold b in Hpending. unfold Bridge.pending in Hpending. simpl in Hpending.
  pose proof (pending_run execute describe (evs ++ Bridge.settle b) (Bridge.init s0))
    as Hpending'.
  rewrite run_app in Hpending'. fold b b' in Hpending'.
  unfold Bridge.pending in Hpending'. simpl in Hpending'.
  rewrite submissions_app_quiet in Hpending' by apply quiet_settle.
  destruct Hinv as (Hids & Hstarted & Hreplay & Hlog & Hwait).
  destruct Hinv' as (Hids' & Hstarted' & Hreplay' & _ & Hwait').
  destruct Hrest as (Hq' & Hb' & Hr' & Hw').
  assert (ids = seq 0 (Bridge.next_id b)) as Eids by (by unfold ids; rewrite <- Hpending).
  assert (ids = seq 0 (Bridge.next_id b')) as Eids' by (by unfold ids; rewrite <- Hpending').
  assert (Bridge.result_id <$> Bridge.results b = Bridge.call_id <$> Bridge.finished b)
    as Eres.
  { apply (f_equal (λ p, Bridge.result_id <$> p.1)) in Hreplay. simpl in Hreplay.
    by rewrite replay_ids in Hreplay. }
  assert (Bridge.result_id <$> Bridge.results b' = ids) as Eres'.
  { apply (f_equal (λ p, Bridge.result_id <$> p.1)) in Hreplay'. simpl in Hreplay'.
    rewrite replay_ids in Hreplay'. rewrite Hreplay'.
    rewrite Hr' in Hstarted'. simpl in Hstarted'. rewrite app_nil_r in Hstarted'.
    rewrite <- Hstarted'. unfold ids. rewrite <- Hpending', Hb', Hq'. simpl.
    by rewrite app_nil_r. }
  split; [done|]. split; [done|]. split; [by rewrite <- Eres|]. split; [done|].
  split; [rewrite Eids; apply NoDup_seq|]. split; [by rewrite Eids|].
  split; [done|]. split; [done|].
  rewrite Hw' in Hwait'. simpl in Hwait'. by rewrite Hwait', Eids'.
Qed.

(** three submitters on the operations of [server.py]: calls 1 and 2 arrive
    while call 0 runs, call 1 fails, and the submitter of call 2 gives up
    before its call has ended *)
Example bridge_on_the_server_operations :
  let execute := dispatch (H := sample_runtime) (H0 := sample_host) in
  let describe := exc_str (H := sample_runtime) in
  let box : gmap string PyVal :=
    {[ "length" := VFloat 1; "width" := VFloat 2; "height" := VFloat 3 ]} in
  let evs :=
    [Bridge.Submit 1 "create_box" box; Bridge.Tick; Bridge.Begin;
     Bridge.Submit 2 "move_object" ∅; Bridge.Submit 3 "list_objects" ∅;
     Bridge.Finish; Bridge.Tick; Bridge.Begin; Bridge.Finish; Bridge.Begin;
     Bridge.Wake 1; Bridge.Wake 0; Bridge.Expire 2] in
  let b := Bridge.run execute describe evs (Bridge.init boot) in
  let b' := Bridge.run execute describe (Bridge.settle b) b in
  Bridge.log b = [Bridge.Began 0; Bridge.Ended 0; Bridge.Began 1; Bridge.Ended 1;
                  Bridge.Began 2]
  ∧ Bridge.results b'
    = [Bridge.mkResult 0
         (Bridge.success "Created box 'Box_0' with dimensions 1.0x2.0x3.0mm");
       Bridge.mkResult 1 (Bridge.failure "'object_name'");
       Bridge.mkResult 2
         (Bridge.success ("Objects in document:" +:+ newline +:+ "- Box_0 (Box)"))]
  ∧ Bridge.received b'
    = [Bridge.mkResult 1 (Bridge.failure "'object_name'");
       Bridge.mkResult 0
         (Bridge.success "Created box 'Box_0' with dimensions 1.0x2.0x3.0mm");
       Bridge.mkResult 2 (Bridge.failure "BridgeTimeout")]
  ∧ Bridge.waiting b' = [].
Proof. vm_compute. done. Qed.

(** ** [active_body] is never read *)

Lemma oblivious_ret {A} (a : A) : oblivious (mret a).
Proof. done. Qed.

Lemma oblivious_lift {A} (o : Outcome A) : oblivious (lift o).
Proof. done. Qed.

Lemma oblivious_get_doc : oblivious get_doc.
Proof. done. Qed.

Lemma oblivious_set_doc d : oblivious (set_doc d).
Proof. done. Qed.

Lemma oblivious_bind {A B} (m : M A) (k : A → M B) :
  oblivious m → (∀ a, oblivious (k a)) → oblivious (m ≫= k).
Proof.
  intros Hm Hk body w. unfold mbind, M_bind. rewrite Hm.
  destruct (m w) as [[a|e] w']; simpl; [apply Hk | done].
Qed.

Lemma oblivious_try_except {A} (m : M A) (h : PyExc → M A) :
  oblivious m → (∀ e, oblivious (h e)) → oblivious (try_except m h).
Proof.
  intros Hm Hh body w. unfold try_except. rewrite Hm.
  destruct (m w) as [[a|e] w']; simpl; [done | apply Hh].
Qed.

Lemma oblivious_on_doc {A} (f : FreeCAD.Document → Outcome (A * FreeCAD.Document)) :
  oblivious (on_doc f).
Proof.
  intros body w. unfold on_doc. simpl.
  destruct (doc (self w)) as [d|]; [|done]. by destruct (f d) as [[a d']|e].
Qed.

Section Oblivious.
Context `{PyRuntime} `{FreeCAD.Host}.

Lemma oblivious_write_mesh filepath mesh : oblivious (write_mesh filepath mesh).
Proof. intros body w. unfold write_mesh. simpl. by destruct FreeCAD.write_file. Qed.

Lemma oblivious_saveAs filepath : oblivious (doc_saveAs filepath).
Proof.
  intros body w. unfold doc_saveAs. simpl. destruct (doc (self w)) eqn:Ed; [|done].
  destruct FreeCAD.write_file; [|done]. unfold with_body. simpl. by rewrite Ed.
Qed.

Ltac blind :=
  repeat first
    [ apply oblivious_ret
    | apply oblivious_lift
    | apply oblivious_get_doc
    | apply oblivious_on_doc
    | apply oblivious_set_doc
    | apply oblivious_write_mesh
    | apply oblivious_saveAs
    | apply oblivious_bind; [ | intros ?]
    | match goal with
      | |- oblivious (match ?x with _ => _ end) => destruct x
      end ].

Lemma oblivious_ensure_doc : oblivious ensure_doc.
Proof. unfold ensure_doc. blind. Qed.

Lemma oblivious_resolve object_names : oblivious (resolve object_names).
Proof.
  induction object_names as [|name rest IH]; simpl; [blind|].
  unfold doc_getObject, read_doc. blind. exact IH.
Qed.

Lemma oblivious_meshes_of objects : oblivious (meshes_of objects).
Proof.
  induction objects as [|obj rest IH]; simpl; [blind|].
  unfold mesh_of, read_doc. blind. exact IH.
Qed.

Ltac blind_handler :=
  unfold count_objects, doc_getObject, doc_addObject, set_dimension, set_link,
    get_Placement, set_Base, set_Placement, doc_recompute, read_doc, change_doc;
  cbv zeta;
  repeat first
    [ apply oblivious_ensure_doc
    | apply oblivious_resolve
    | apply oblivious_meshes_of
    | progress blind ].

Lemma oblivious_dispatch tool_name arguments : oblivious (dispatch tool_name arguments).
Proof.
  unfold dispatch.
  repeat match goal with
         | |- oblivious (if ?b then _ else _) => destruct b
         end;
    [ unfold _boolean_operation | unfold _create_box | unfold _create_cylinder
    | unfold _create_document | unfold _create_pad | unfold _create_pocket
    | unfold _create_sketch | unfold _create_sphere | unfold _export_stl
    | unfold _list_objects | unfold _move_object | unfold _rotate_object
    | unfold _save_document | ];
    blind_handler.
Qed.

Lemma oblivious_serve r : oblivious (serve r).
Proof.
  destruct r; simpl;
    unfold handle_tool_call, boolean_operation, create_box, create_cylinder,
      create_document, create_pad, create_pocket, create_sketch, create_sphere,
      export_stl, list_objects, move_object, rotate_object, save_document;
    [ apply oblivious_try_except; [apply oblivious_dispatch | intros e; blind]
    | unfold _boolean_operation | unfold _create_box | unfold _create_cylinder
    | unfold _create_document | unfold _create_pad | unfold _create_pocket
    | unfold _create_sketch | unfold _create_sphere | unfold _export_stl
    | unfold _list_objects | unfold _move_object | unfold _rotate_object
    | unfold _save_document ];
    blind_handler.
Qed.
End Oblivious.

(** C10: [active_body] is [None] in the server as constructed, and after any
    sequence of requests it is still [None]: no operation writes it.  Nor
    does any operation read it: whatever it holds, a request returns or
    raises the same, does the same to the document and to the disk, and
    leaves [active_body] as it found it. *)
Theorem active_body_stays_None `{PyRuntime} `{FreeCAD.Host}
    (rs : list Request) (files : gmap string FreeCAD.FileData) :
  active_body __init__ = None
  ∧ active_body (self (serve_all rs (mkWorld __init__ files))) = None
  ∧ ∀ r body w, serve r (with_body body w) = ((serve r w).1, with_body body (serve r w).2).
Proof.
  split; [reflexivity|]. split.
  - by destruct (framed_serve_all stable rs (mkWorld __init__ files)) as [-> _].
  - intros r body w. apply oblivious_serve.
Qed.

(** * Further properties of the handlers *)

(** ** Errors that change nothing *)

(** X1: without a document, each of [boolean_operation], [export_stl],
    [list_objects], [move_object], [rotate_object] and [save_document]
    answers ["No document available"] whatever its arguments, before reading
    any of them, and leaves the world as it was. *)
Theorem no_document_is_reported `{PyRuntime} `{FreeCAD.Host}
    (tool_name : string) (arguments : gmap string PyVal) (w : World) :
  doc (self w) = None →
  tool_name ∈ needs_document →
  handle_tool_call tool_name arguments w = (Returned "No document available", w).
Proof.
  intros Ed. unfold needs_document. rewrite !elem_of_cons, elem_of_nil.
  intros [->|[->|[->|[->|[->|[->|[]]]]]]];
    unfold handle_tool_call, try_except, dispatch; simpl;
    unfold _boolean_operation, _export_stl, _list_objects, _move_object, _rotate_object,
      _save_document;
    erewrite bind_returned by reflexivity; by rewrite Ed.
Qed.

Lemma no_document_is_reported_witness :
  handle_tool_call (H := sample_runtime) (H0 := sample_host) "move_object" ∅ boot
  = (Returned "No document available", boot).
Proof.
  apply (no_document_is_reported (H := sample_runtime) (H0 := sample_host));
    [reflexivity|].
  unfold needs_document. rewrite !elem_of_cons. auto.
Defined.

(** X2: a tool name that is none of the thirteen is answered ["Unknown tool:
    <name>"], and the world is as it was. *)
Theorem unknown_tool_is_reported `{PyRuntime} `{FreeCAD.Host}
    (tool_name : string) (arguments : gmap string PyVal) (w : World) :
  tool_name ∉ tool_names →
  handle_tool_call tool_name arguments w = (Returned ("Unknown tool: " +:+ tool_name), w).
Proof.
  intros Hunknown. unfold handle_tool_call, try_except, dispatch.
  repeat match goal with
         | |- context [ String.eqb tool_name ?name ] =>
             destruct (String.eqb_spec tool_name name) as [->|_];
             [ exfalso; apply Hunknown; unfold tool_names; rewrite !elem_of_cons; tauto | ]
         end.
  reflexivity.
Qed.

Lemma unknown_tool_is_reported_witness :
  handle_tool_call (H := sample_runtime) (H0 := sample_host) "delete_object" ∅ only_A
  = (Returned "Unknown tool: delete_object", only_A).
Proof.
  apply (unknown_tool_is_reported (H := sample_runtime) (H0 := sample_host)).
  unfold tool_names. rewrite !elem_of_cons, elem_of_nil.
  intros Hin. repeat (destruct Hin as [E|Hin]; [discriminate E|]). exact Hin.
Defined.

(** X3: [move_object] and [rotate_object] on a name the document does not
    have return ["Object not found: <name>"] and leave the world as it
    was. *)
Theorem missing_object_is_reported `{PyRuntime}
    (name : string) (x y z angle : float) (w : World) (d : FreeCAD.Document) :
  doc (self w) = Some d →
  name ∉ FreeCAD.names d →
  move_object name x y z w = (Returned ("Object not found: " +:+ name), w)
  ∧ rotate_object name x y z angle w = (Returned ("Object not found: " +:+ name), w).
Proof.
  intros Ed Hmissing. apply index_of_missing in Hmissing. split.
  - unfold move_object, _move_object.
    erewrite bind_returned by reflexivity. rewrite Ed.
    erewrite bind_returned by (by apply lift_item).
    erewrite bind_returned by (by apply getObject_eval).
    erewrite bind_returned by (by apply lift_item).
    by rewrite Hmissing.
  - unfold rotate_object, _rotate_object.
    erewrite bind_returned by reflexivity. rewrite Ed.
    erewrite bind_returned by (by apply lift_returned).
    erewrite bind_returned by (by apply lift_item).
    erewrite bind_returned by (by apply lift_item).
    erewrite bind_returned by (by apply getObject_eval).
    by rewrite Hmissing.
Qed.

Lemma missing_object_is_reported_witness :
  move_object (H := sample_runtime) "B" 1 0 0 only_A
  = (Returned "Object not found: B", only_A).
Proof.
  refine (proj1 (missing_object_is_reported (H := sample_runtime)
                   "B" 1 0 0 0 only_A _ eq_refl _)).
  unfold FreeCAD.names. simpl. rewrite list_elem_of_singleton. intros E. discriminate E.
Defined.

(** ** A handler that raises has changed nothing, unless it is a creator *)

Lemma reads_ret {A} (a : A) : reads (mret a).
Proof. done. Qed.

Lemma reads_lift {A} (o : Outcome A) : reads (lift o).
Proof. done. Qed.

Lemma reads_bind {A B} (m : M A) (k : A → M B) :
  reads m → (∀ a, reads (k a)) → reads (m ≫= k).
Proof.
  intros Hm Hk w. specialize (Hm w). unfold mbind, M_bind.
  destruct (m w) as [[a|e] w']; simpl in *; subst; [apply Hk | done].
Qed.

Lemma reads_read_doc {A} (f : FreeCAD.Document → Outcome A) : reads (read_doc f).
Proof.
  intros w. unfold read_doc, on_doc. destruct (doc (self w)) as [d|] eqn:Ed; [|done].
  destruct (f d); simpl; [|done]. by apply with_doc_same.
Qed.

Lemma atomic_of_reads {A} (m : M A) : reads m → atomic m.
Proof. intros Hm w. specialize (Hm w). by destruct (m w) as [[a|e] w']. Qed.

Lemma atomic_bind_reads {A B} (m : M A) (k : A → M B) :
  reads m → (∀ a, atomic (k a)) → atomic (m ≫= k).
Proof.
  intros Hm Hk w. specialize (Hm w). unfold mbind, M_bind.
  destruct (m w) as [[a|e] w']; simpl in *; subst; [apply Hk | done].
Qed.

Lemma atomic_bind_ret {A B} (m : M A) (f : A → B) :
  atomic m → atomic (m ≫= λ a, mret (f a)).
Proof.
  intros Hm w. specialize (Hm w). unfold mbind, M_bind.
  by destruct (m w) as [[a|e] w'].
Qed.

Section Atomic.
Context `{PyRuntime} `{FreeCAD.Host}.

(** unfold a handler down to its matches and decide each *)
Ltac by_cases :=
  unfold mbind, M_bind, mret, M_ret, get_doc, set_doc, lift, doc_getObject, doc_addObject,
    count_objects, get_Placement, set_Base, set_Placement, set_link, doc_recompute,
    read_doc, change_doc, on_doc, doc_saveAs, outcome_bind;
  simpl;
  repeat (case_match; simplify_eq/=); try done.

Lemma atomic_boolean_operation args : atomic (_boolean_operation args).
Proof. intros [[body document] files]. unfold _boolean_operation. by_cases. Qed.

Lemma atomic_move_object args : atomic (_move_object args).
Proof. intros [[body document] files]. unfold _move_object. by_cases. Qed.

Lemma atomic_rotate_object args : atomic (_rotate_object args).
Proof. intros [[body document] files]. unfold _rotate_object. by_cases. Qed.

Lemma atomic_save_document args : atomic (_save_document args).
Proof. intros [[body document] files]. unfold _save_document. by_cases. Qed.

Lemma atomic_create_document args : atomic (_create_document args).
Proof. intros [[body document] files]. unfold _create_document. by_cases. Qed.

Lemma atomic_list_objects : atomic _list_objects.
Proof. intros [[body document] files]. unfold _list_objects. by_cases. Qed.

Lemma reads_resolve object_names : reads (resolve object_names).
Proof.
  induction object_names as [|name rest IH]; [done|]. simpl.
  apply reads_bind; [apply reads_read_doc|]. intros obj.
  apply reads_bind; [exact IH|]. intros objects. apply reads_ret.
Qed.

Lemma reads_meshes_of objects : reads (meshes_of objects).
Proof.
  induction objects as [|obj rest IH]; [done|]. simpl.
  apply reads_bind; [apply reads_read_doc|]. intros mesh.
  apply reads_bind; [exact IH|]. intros meshes. apply reads_ret.
Qed.

Lemma atomic_write_mesh filepath mesh : atomic (write_mesh filepath mesh).
Proof. intros w. unfold write_mesh. by destruct FreeCAD.write_file. Qed.

Lemma atomic_export_stl args : atomic (_export_stl args).
Proof.
  unfold _export_stl.
  apply atomic_bind_reads; [done|]. intros [d|]; [|by apply atomic_of_reads].
  apply atomic_bind_reads; [apply reads_lift|]. intros filepath.
  apply atomic_bind_reads; [apply reads_lift|]. intros object_names.
  apply atomic_bind_reads; [apply reads_lift|]. intros names.
  apply atomic_bind_reads; [apply reads_resolve|]. intros objects.
  case_bool_decide; [|by apply atomic_of_reads].
  apply atomic_bind_reads; [apply reads_lift|]. intros _.
  apply atomic_bind_reads; [apply reads_meshes_of|]. intros meshes.
  apply atomic_bind_ret.
  destruct meshes as [|mesh [|other others]];
    [by apply atomic_of_reads | apply atomic_write_mesh | apply atomic_write_mesh].
Qed.

Lemma atomic_dispatch tool_name arguments :
  tool_name ∉ creators → atomic (dispatch tool_name arguments).
Proof.
  intros Hnot. unfold dispatch.
  repeat match goal with
         | |- context [ String.eqb tool_name ?name ] =>
             destruct (String.eqb_spec tool_name name) as [->|_];
             [ first
                 [ exfalso; apply Hnot; unfold creators; rewrite !elem_of_cons; tauto
                 | by auto using atomic_boolean_operation, atomic_move_object,
                     atomic_rotate_object, atomic_save_document, atomic_create_document,
                     atomic_list_objects, atomic_export_stl ]
             | ]
         end.
  by apply atomic_of_reads.
Qed.
End Atomic.

(** X4: unless the tool is one of the six creators, a handler that raises has
    changed nothing: [handle_tool_call] then answers with the error text in
    the world it was called in.  (A creator that raises may have created the
    document, or added an object, before.) *)
Theorem a_failed_call_changes_nothing `{PyRuntime} `{FreeCAD.Host}
    (tool_name : string) (arguments : gmap string PyVal) (w : World) (e : PyExc) :
  tool_name ∉ creators →
  (dispatch tool_name arguments w).1 = Raised e →
  handle_tool_call tool_name arguments w
  = (Returned ("Error executing " +:+ tool_name +:+ ": " +:+ exc_str e), w).
Proof.
  intros Hnot Hraised. pose proof (atomic_dispatch tool_name arguments Hnot w) as Hw.
  unfold handle_tool_call, try_except.
  destruct (dispatch tool_name arguments w) as [[r|e'] w']; simpl in *; [done|].
  by simplify_eq.
Qed.

(** a move whose vector is not a dict *)
Lemma a_failed_call_changes_nothing_witness :
  handle_tool_call (H := sample_runtime) (H0 := sample_host) "move_object"
    {[ "object_name" := VStr "A"; "vector" := VStr "up" ]} only_A
  = (Returned "Error executing move_object: object has no attribute 'get'", only_A).
Proof.
  apply (a_failed_call_changes_nothing (H := sample_runtime) (H0 := sample_host)
           "move_object" _ only_A (AttributeError "object has no attribute 'get'"));
    [|reflexivity].
  unfold creators. rewrite !elem_of_cons, elem_of_nil.
  intros Hin. repeat (destruct Hin as [E|Hin]; [discriminate E|]). exact Hin.
Defined.

(** ** What a failing [create_box] leaves behind *)

Section CreateBoxFailures.
Context `{PyRuntime} `{FreeCAD.Host}.


Lemma ensure_doc_names w : object_names (ensure_doc w).2 = object_names w.
Proof.
  destruct (ensure_doc_eval w) as (d & -> & Enames). unfold object_names at 1. simpl.
  done.
Qed.


End CreateBoxFailures.





(** ** Objects are never removed *)

Lemma grows_refl w : grows w w.
Proof. unfold grows. done. Qed.

Lemma grows_trans w1 w2 w3 : grows w1 w2 → grows w2 w3 → grows w1 w3.
Proof. unfold grows. intros H12 H23. by etrans. Qed.

Lemma grows_same_names {A} (m : M A) : keeps same_names m → keeps grows m.
Proof. intros Hm w. unfold grows. by rewrite kept_names. Qed.

Lemma grows_reads {A} (m : M A) : reads m → keeps grows m.
Proof. intros Hm w. rewrite Hm. apply grows_refl. Qed.

Section Grows.
Context `{PyRuntime} `{FreeCAD.Host}.

Lemma grows_addObject type name : keeps grows (doc_addObject type name).
Proof.
  apply keeps_on_doc; [apply grows_refl|]. intros w d a d' Ed Ef.
  unfold FreeCAD.addObject in Ef. destruct name; simplify_eq.
  unfold grows, object_names. rewrite Ed. simpl.
  unfold FreeCAD.names. simpl. rewrite fmap_app. by apply prefix_app_r.
Qed.

Lemma grows_ensure_doc : keeps grows ensure_doc.
Proof. intros w. unfold grows. by rewrite ensure_doc_names. Qed.

Lemma grows_write_mesh filepath mesh : keeps grows (write_mesh filepath mesh).
Proof. intros w. unfold write_mesh. destruct FreeCAD.write_file; simpl; by unfold grows. Qed.

Lemma grows_saveAs filepath : keeps grows (doc_saveAs filepath).
Proof.
  intros w. unfold doc_saveAs. destruct (doc (self w)) eqn:Ed; [|apply grows_refl].
  destruct FreeCAD.write_file; simpl; [|apply grows_refl].
  unfold grows, object_names. simpl. by rewrite Ed.
Qed.

Ltac grow :=
  repeat first
    [ apply keeps_ret; apply grows_refl
    | apply keeps_lift; apply grows_refl
    | apply keeps_get_doc; apply grows_refl
    | apply grows_ensure_doc
    | apply grows_addObject
    | apply grows_write_mesh
    | apply grows_saveAs
    | apply grows_reads; first [apply reads_read_doc | apply reads_resolve | apply reads_meshes_of]
    | apply grows_same_names;
      first [ apply same_names_set_dimension | apply same_names_set_link
            | apply same_names_set_Base | apply same_names_set_Placement
            | apply same_names_recompute ]
    | apply keeps_bind; [apply grows_trans | | intros ?]
    | match goal with
      | |- keeps _ (match ?x with _ => _ end) => destruct x
      end ].

Ltac grow_handler :=
  unfold count_objects, doc_getObject, get_Placement; cbv zeta; grow.

Lemma grows_boolean_operation args : keeps grows (_boolean_operation args).
Proof. unfold _boolean_operation. grow_handler. Qed.

Lemma grows_create_box args : keeps grows (_create_box args).
Proof. unfold _create_box. grow_handler. Qed.

Lemma grows_create_cylinder args : keeps grows (_create_cylinder args).
Proof. unfold _create_cylinder. grow_handler. Qed.

Lemma grows_create_sketch args : keeps grows (_create_sketch args).
Proof. unfold _create_sketch. grow_handler. Qed.

Lemma grows_create_sphere args : keeps grows (_create_sphere args).
Proof. unfold _create_sphere. grow_handler. Qed.

Lemma grows_create_pad args : keeps grows (_create_pad args).
Proof. unfold _create_pad. grow_handler. Qed.

Lemma grows_create_pocket args : keeps grows (_create_pocket args).
Proof. unfold _create_pocket. grow_handler. Qed.

Lemma grows_export_stl args : keeps grows (_export_stl args).
Proof. unfold _export_stl. grow_handler. Qed.

Lemma grows_list_objects : keeps grows _list_objects.
Proof. unfold _list_objects. grow_handler. Qed.

Lemma grows_move_object args : keeps grows (_move_object args).
Proof. unfold _move_object. grow_handler. Qed.

Lemma grows_rotate_object args : keeps grows (_rotate_object args).
Proof. unfold _rotate_object. grow_handler. Qed.

Lemma grows_save_document args : keeps grows (_save_document args).
Proof. unfold _save_document. grow_handler. Qed.

Lemma grows_dispatch tool_name arguments :
  String.eqb tool_name "create_document" = false →
  keeps grows (dispatch tool_name arguments).
Proof.
  intros Hnot. unfold dispatch. rewrite Hnot.
  repeat match goal with
         | |- keeps _ (if ?b then _ else _) => destruct b
         end;
    auto using grows_boolean_operation, grows_create_box, grows_create_cylinder,
      grows_create_sketch, grows_create_sphere, grows_create_pad, grows_create_pocket,
      grows_export_stl, grows_list_objects, grows_move_object, grows_rotate_object,
      grows_save_document.
  apply keeps_ret, grows_refl.
Qed.

Lemma grows_serve r : replaces r = false → keeps grows (serve r).
Proof.
  destruct r; simpl; intros Hr; try discriminate Hr;
    unfold boolean_operation, create_box, create_cylinder, create_pad,
      create_pocket, create_sketch, create_sphere, export_stl, list_objects, move_object,
      rotate_object, save_document;
    auto using grows_boolean_operation, grows_create_box, grows_create_cylinder,
      grows_create_sketch, grows_create_sphere, grows_create_pad, grows_create_pocket,
      grows_export_stl, grows_list_objects, grows_move_object, grows_rotate_object,
      grows_save_document.
  unfold handle_tool_call. apply keeps_try_except; [apply grows_trans| |].
  - by apply grows_dispatch.
  - intros e. apply keeps_ret, grows_refl.
Qed.
End Grows.

(** X7: only [create_document] drops objects.  After any sequence of
    requests none of which reaches [_create_document], failed ones included,
    [doc.Objects] begins with the objects there were, under the names they
    had: no handler removes, renames or reorders an object. *)
Theorem objects_are_never_removed `{PyRuntime} `{FreeCAD.Host}
    (rs : list Request) (w : World) :
  forallb (λ r, negb (replaces r)) rs = true →
  object_names w `prefix_of` object_names (serve_all rs w).
Proof.
  revert w. induction rs as [|r rs IH]; intros w Hrs; simpl in *; [done|].
  apply andb_prop in Hrs as [Hr Hrs]. apply negb_true_iff in Hr.
  etrans; [|by apply IH]. by apply grows_serve.
Qed.

(** a box, a move of an object that is not there, a cut: [A] stays first *)
Lemma objects_are_never_removed_witness :
  ["A"] `prefix_of`
  object_names
    (serve_all (H := sample_runtime) (H0 := sample_host)
       [Create_box 1 1 1 0 0 0 (Some "B"); Move_object "C" 1 0 0;
        Boolean_operation op_cut "A" "B" None]
       only_A).
Proof.
  exact (objects_are_never_removed (H := sample_runtime) (H0 := sample_host)
           [Create_box 1 1 1 0 0 0 (Some "B"); Move_object "C" 1 0 0;
            Boolean_operation op_cut "A" "B" None]
           only_A eq_refl).
Defined.

(** ** [boolean_operation] on objects that are there *)

Lemma index_of_present d n : n ∈ FreeCAD.names d → is_Some (FreeCAD.index_of d n).
Proof.
  intros Hn. rewrite index_of_names. apply fmap_is_Some.
  by eapply list_find_elem_of.
Qed.

Lemma eq_str_other v s : v ≠ VStr s → eq_str v s = false.
Proof.
  intros Hv. destruct v; simpl; try done.
  apply String.eqb_neq. congruence.
Qed.

(** X8: with both objects in the document, [_boolean_operation] adds one
    object of type [Part::Cut], [Part::Common] or [Part::Fuse] under the
    name the host gives for the one asked, links it to the two operands as
    [Base] and [Tool], and leaves the operands in the document as they
    were.  The text quotes the name asked for, not the one given. *)
Theorem boolean_operation_links_the_operands `{PyRuntime} `{FreeCAD.Host}
    (args : gmap string PyVal) (op : Operation) (base tool asked : string)
    (w : World) (d : FreeCAD.Document) (i j : nat) :
  doc (self w) = Some d →
  args !! "operation" = Some (VStr (Operation_str op)) →
  args !! "base_object" = Some (VStr base) →
  args !! "tool_object" = Some (VStr tool) →
  default (VStr (Operation_str op +:+ "_" +:+ pretty (length (FreeCAD.Objects d))))
          (args !! "result_name") = VStr asked →
  FreeCAD.index_of d base = Some i →
  FreeCAD.index_of d tool = Some j →
  let given := FreeCAD.unique_name (FreeCAD.names d) asked in
  let result :=
    FreeCAD.mkObject given given (operation_type op)
      (FreeCAD.mkPlacement FreeCAD.origin FreeCAD.NullRotation)
      (<["Tool" := FreeCAD.Link j]> {["Base" := FreeCAD.Link i]}) in
  _boolean_operation args w
  = (Returned ("Created " +:+ Operation_str op +:+ " operation '" +:+ asked +:+ "'"),
     with_doc (FreeCAD.mkDocument (FreeCAD.doc_Name d) (FreeCAD.Objects d ++ [result])) w).
Proof.
  intros Ed Eop Ebase Etool Easked Ei Ej given result. unfold _boolean_operation.
  erewrite bind_returned by reflexivity. rewrite Ed.
  erewrite bind_returned by (by apply lift_item).
  erewrite bind_returned by (by apply lift_item).
  erewrite bind_returned by (by apply count_objects_eval).
  cbv zeta.
  erewrite bind_returned by (by apply lift_item).
  erewrite bind_returned by (by apply getObject_eval).
  erewrite bind_returned by (by apply getObject_eval).
  rewrite Ei, Ej.
  change (py_str (VStr (Operation_str op))) with (Operation_str op).
  rewrite Easked.
  assert (∀ type, type = operation_type op →
    (result ← doc_addObject type (VStr asked);
     set_link result "Base" i;;
     set_link result "Tool" j;;
     doc_recompute;;
     mret ("Created " +:+ Operation_str op +:+ " operation '" +:+ py_str (VStr asked)
           +:+ "'")) w
    = (Returned ("Created " +:+ Operation_str op +:+ " operation '" +:+ asked +:+ "'"),
       with_doc (FreeCAD.mkDocument (FreeCAD.doc_Name d) (FreeCAD.Objects d ++ [result]))
         w)) as Hfinish.
  { intros type ->.
    erewrite bind_returned by (eapply on_doc_eval; [exact Ed|reflexivity]).
    erewrite bind_returned by (by eapply change_doc_eval).
    erewrite bind_returned by (by eapply change_doc_eval).
    erewrite bind_returned by (by eapply change_doc_eval).
    unfold mret, M_ret. f_equal. unfold with_doc. simpl. do 3 f_equal.
    unfold FreeCAD.recompute, FreeCAD.update. simpl. f_equal.
    rewrite list_alter_alter_eq.
    rewrite alter_app_r_alt, Nat.sub_diag by done. reflexivity. }
  destruct op; simpl; by apply Hfinish.
Qed.

(** the union of [A] with itself: one object may be base and tool *)
Lemma boolean_operation_links_the_operands_witness :
  (boolean_operation (H := sample_runtime) (H0 := sample_host)
     op_union "A" "A" None only_A).1
  = Returned "Created union operation 'union_1'"
  ∧ object_names
      (boolean_operation (H := sample_runtime) (H0 := sample_host)
         op_union "A" "A" None only_A).2
    = ["A"; "union_1"].
Proof.
  pose proof (boolean_operation_links_the_operands
                (H := sample_runtime) (H0 := sample_host)
                {[ "operation" := VStr "union"; "base_object" := VStr "A";
                   "tool_object" := VStr "A" ]}
                op_union "A" "A" "union_1" only_A _ 0 0
                eq_refl eq_refl eq_refl eq_refl eq_refl eq_refl eq_refl) as E.
  split; [exact (f_equal fst E) | exact (f_equal (λ r, object_names r.2) E)].
Defined.

(** X9: an operation that is none of ["cut"], ["intersection"], ["union"]
    is found out only after both objects have been looked up, and before
    anything is added: with both objects there, the answer is ["Unknown
    operation: <operation>"] and the world is as it was. *)
Theorem unknown_operation_is_reported `{PyRuntime} `{FreeCAD.Host}
    (args : gmap string PyVal) (operation : PyVal) (base tool : string)
    (w : World) (d : FreeCAD.Document) :
  doc (self w) = Some d →
  args !! "operation" = Some operation →
  args !! "base_object" = Some (VStr base) →
  args !! "tool_object" = Some (VStr tool) →
  base ∈ FreeCAD.names d →
  tool ∈ FreeCAD.names d →
  operation ∉ [VStr "cut"; VStr "intersection"; VStr "union"] →
  _boolean_operation args w
  = (Returned ("Unknown operation: " +:+ py_str operation), w).
Proof.
  intros Ed Eop Ebase Etool Hbase Htool Hop. unfold _boolean_operation.
  erewrite bind_returned by reflexivity. rewrite Ed.
  erewrite bind_returned by (by apply lift_item).
  erewrite bind_returned by (by apply lift_item).
  erewrite bind_returned by (by apply count_objects_eval).
  cbv zeta.
  erewrite bind_returned by (by apply lift_item).
  erewrite bind_returned by (by apply getObject_eval).
  erewrite bind_returned by (by apply getObject_eval).
  destruct (index_of_present d base Hbase) as [i ->].
  destruct (index_of_present d tool Htool) as [j ->].
  rewrite !not_elem_of_cons in Hop. destruct Hop as (Hcut & Hintersection & Hunion & _).
  by rewrite !eq_str_other.
Qed.

(** ["xor"] on [A] and [A] *)
Lemma unknown_operation_is_reported_witness :
  _boolean_operation (H := sample_runtime) (H0 := sample_host)
    {[ "operation" := VStr "xor"; "base_object" := VStr "A"; "tool_object" := VStr "A" ]}
    only_A
  = (Returned "Unknown operation: xor", only_A).
Proof.
  eapply (unknown_operation_is_reported (H := sample_runtime) (H0 := sample_host)
            _ (VStr "xor") "A" "A" only_A);
    [reflexivity | reflexivity | reflexivity | reflexivity | | | ].
  - unfold FreeCAD.names. simpl. apply list_elem_of_singleton. reflexivity.
  - unfold FreeCAD.names. simpl. apply list_elem_of_singleton. reflexivity.
  - rewrite !not_elem_of_cons. repeat split; try (intros E; discriminate E).
    apply not_elem_of_nil.
Defined.

(** ** The tools that are not implemented *)



(** ** Moves and rotations, one after the other *)

Section Composed.
Context `{PyRuntime}.

End Composed.





(** ** A box, looked up after it was made *)




(** ** What [export_stl] writes *)

Section ExportContent.
Context `{PyRuntime} `{FreeCAD.Host}.

Lemma meshes_of_eval w d objects meshes :
  doc (self w) = Some d →
  Forall2 (tessellated d) objects meshes →
  meshes_of objects w = (Returned meshes, w).
Proof.
  intros Ed. induction 1 as [|obj mesh objects meshes (o & Eo & Emesh) _ IH]; [done|].
  simpl.
  erewrite bind_returned
    by (unfold mesh_of; eapply read_doc_eval; [exact Ed|by rewrite Eo]).
  erewrite bind_returned by exact IH. reflexivity.
Qed.

Lemma foldl_app_concat {A} (combined : list A) (others : list (list A)) :
  foldl app combined others = combined ++ concat others.
Proof.
  revert combined. induction others as [|mesh others IH]; intros combined; simpl.
  - by rewrite app_nil_r.
  - by rewrite IH, app_assoc.
Qed.
End ExportContent.

(** X14: when [Mesh] can be imported, every object named tessellates and
    the path can be written, [export_stl] writes one file: the facets of the
    objects found, in the order their names were given, a name given twice
    exported twice; the text counts the names found, and nothing but that
    path on the disk changes. *)
Theorem export_stl_writes_the_facets_in_order `{PyRuntime} `{FreeCAD.Host}
    (objects : list string) (filepath : string) (w : World) (d : FreeCAD.Document)
    (meshes : list FreeCAD.Mesh) :
  doc (self w) = Some d →
  FreeCAD.has_Mesh = true →
  FreeCAD.writable filepath = true →
  Forall2 (tessellated d) (omap (FreeCAD.index_of d) objects) meshes →
  meshes ≠ [] →
  export_stl objects filepath w
  = (Returned ("Exported " +:+ pretty (length meshes) +:+ " objects to: " +:+ filepath),
     mkWorld (self w) (<[filepath := FreeCAD.MeshFile (concat meshes)]> (disk w))).
Proof.
  intros Ed Hmesh Hwritable Hmeshes Hsome.
  rewrite (export_stl_resolved _ _ _ _ Ed). cbv zeta.
  pose proof (Forall2_length _ _ _ Hmeshes) as Elen.
  rewrite bool_decide_eq_true_2
    by (rewrite Elen; destruct meshes; [done|simpl; lia]).
  erewrite bind_returned
    by (apply lift_returned; unfold FreeCAD.import_Mesh; by rewrite Hmesh).
  erewrite bind_returned by (by eapply meshes_of_eval).
  rewrite Elen.
  assert (∀ mesh, write_mesh (VStr filepath) mesh w
                  = (Returned (), mkWorld (self w)
                                    (<[filepath := FreeCAD.MeshFile mesh]> (disk w))))
    as Hwrite.
  { intros mesh. unfold write_mesh, FreeCAD.write_file. by rewrite Hwritable. }
  destruct meshes as [|mesh [|other others]]; [done| |].
  - erewrite bind_returned by apply Hwrite. simpl. by rewrite app_nil_r.
  - erewrite bind_returned by apply Hwrite. by rewrite foldl_app_concat.
Qed.

(** the box [A], named twice *)
Lemma export_stl_writes_the_facets_in_order_witness :
  let r := export_stl (H := sample_runtime) (H0 := sample_host) ["A"; "B"; "A"] "out.stl"
             only_A in
  let facet := (FreeCAD.mkVector 0 0 0, FreeCAD.mkVector 0 0 0, FreeCAD.mkVector 0 0 0) in
  r.1 = Returned "Exported 2 objects to: out.stl"
  ∧ disk r.2 !! "out.stl" = Some (FreeCAD.MeshFile [facet; facet]).
Proof.
  intros r facet.
  assert (r = (Returned "Exported 2 objects to: out.stl",
               mkWorld (self only_A)
                 (<["out.stl" := FreeCAD.MeshFile (concat [[facet]; [facet]])]>
                    (disk only_A)))) as E.
  { unfold r.
    eapply (export_stl_writes_the_facets_in_order (H := sample_runtime) (H0 := sample_host)
              ["A"; "B"; "A"] "out.stl" only_A _ [[facet]; [facet]]);
      [reflexivity | reflexivity | reflexivity | | intros E; discriminate E].
    repeat constructor; eexists; split; reflexivity. }
  rewrite E. split; reflexivity.
Defined.

(** ** The type tag of [list_objects] *)

Lemma string_app_nil_r (s : string) : s +:+ EmptyString = s.
Proof.
  induction s as [|c s IH]; [done|].
  change (String c (s +:+ EmptyString) = String c s). by f_equal.
Qed.

Lemma string_app_assoc (s1 s2 s3 : string) : (s1 +:+ s2) +:+ s3 = s1 +:+ (s2 +:+ s3).
Proof.
  induction s1 as [|c s1 IH]; [done|].
  change (String c ((s1 +:+ s2) +:+ s3) = String c (s1 +:+ (s2 +:+ s3))). by f_equal.
Qed.

Lemma split_last_step c rest acc :
  c ≠ ":"%char →
  split_last (String c rest) acc = split_last rest (acc +:+ String c EmptyString).
Proof.
  intros Hc. destruct c as [[] [] [] [] [] [] [] []]; try reflexivity. by destruct Hc.
Qed.

Lemma has_sep_step c rest : c ≠ ":"%char → has_sep (String c rest) = has_sep rest.
Proof.
  intros Hc. destruct c as [[] [] [] [] [] [] [] []]; try reflexivity. by destruct Hc.
Qed.

Lemma colon_free_cons c s : colon_free (String c s) ↔ c ≠ ":"%char ∧ colon_free s.
Proof.
  unfold colon_free.
  change (String.list_ascii_of_string (String c s))
    with (c :: String.list_ascii_of_string s).
  by rewrite Forall_cons.
Qed.

(** a segment without [':'] is read through to what follows it *)
Lemma split_last_segment seg rest acc :
  colon_free seg → split_last (seg +:+ rest) acc = split_last rest (acc +:+ seg).
Proof.
  revert acc. induction seg as [|c seg IH]; intros acc Hfree.
  - change (EmptyString +:+ rest) with rest. by rewrite string_app_nil_r.
  - apply colon_free_cons in Hfree as [Hc Hfree].
    change (String c seg +:+ rest) with (String c (seg +:+ rest)).
    rewrite split_last_step, IH, string_app_assoc by done. reflexivity.
Qed.

Lemma has_sep_segment seg rest : colon_free seg → has_sep (seg +:+ rest) = has_sep rest.
Proof.
  induction seg as [|c seg IH]; intros Hfree; [done|].
  apply colon_free_cons in Hfree as [Hc Hfree].
  change (String c seg +:+ rest) with (String c (seg +:+ rest)).
  by rewrite has_sep_step, IH.
Qed.

Lemma split_last_join seg segs :
  Forall colon_free (seg :: segs) →
  split_last (join_sep (seg :: segs)) EmptyString = default EmptyString (last (seg :: segs)).
Proof.
  revert seg. induction segs as [|next segs IH]; intros seg Hfree.
  - apply Forall_cons in Hfree as [Hseg _]. simpl.
    rewrite <- (string_app_nil_r seg) at 1. by rewrite split_last_segment.
  - apply Forall_cons in Hfree as [Hseg Hfree].
    change (join_sep (seg :: next :: segs))
      with (seg +:+ String ":" (String ":" (join_sep (next :: segs)))).
    rewrite split_last_segment by done.
    change (split_last (String ":" (String ":" (join_sep (next :: segs)))) (EmptyString +:+ seg))
      with (split_last (join_sep (next :: segs)) EmptyString).
    by rewrite IH.
Qed.

Lemma type_tag_join segs :
  Forall colon_free segs → type_tag (join_sep segs) = default EmptyString (last segs).
Proof.
  intros Hfree. unfold type_tag. destruct segs as [|seg [|next segs]]; [done| |].
  - apply Forall_cons in Hfree as [Hseg _]. simpl.
    rewrite <- (string_app_nil_r seg) at 1. by rewrite has_sep_segment.
  - pose proof Hfree as Hall. apply Forall_cons in Hfree as [Hseg _].
    change (join_sep (seg :: next :: segs))
      with (seg +:+ String ":" (String ":" (join_sep (next :: segs)))).
    rewrite has_sep_segment by done. cbn [has_sep].
    by apply (split_last_join seg (next :: segs)).
Qed.

(** X15: the line [list_objects] prints for an object names its type by the
    last segment of the [TypeId]: for a [TypeId] made of segments without
    [':'] joined by ["::"], [Part::Box] or one with more or fewer segments,
    the line is ["- <Label> (<last segment>)"]. *)
Theorem list_objects_prints_the_last_segment
    (o : FreeCAD.DocumentObject) (segments : list string) :
  Forall colon_free segments →
  FreeCAD.obj_TypeId o = join_sep segments →
  object_line o
  = "- " +:+ FreeCAD.obj_Label o +:+ " (" +:+ default EmptyString (last segments) +:+ ")".
Proof.
  intros Hfree Etype. unfold object_line. cbv zeta.
  fold (type_tag (FreeCAD.obj_TypeId o)). by rewrite Etype, type_tag_join.
Qed.

(** a box [A] of type [Part::Box] *)
Lemma list_objects_prints_the_last_segment_witness :
  object_line (FreeCAD.mkObject "A" "A" "Part::Box"
                 (FreeCAD.mkPlacement FreeCAD.origin FreeCAD.NullRotation) ∅)
  = "- A (Box)".
Proof.
  assert (Forall colon_free ["Part"; "Box"]) as Hfree.
  { repeat constructor; intros E; discriminate E. }
  exact (list_objects_prints_the_last_segment
           (FreeCAD.mkObject "A" "A" "Part::Box"
              (FreeCAD.mkPlacement FreeCAD.origin FreeCAD.NullRotation) ∅)
           ["Part"; "Box"] Hfree eq_refl).
Defined.

Lemma has_sep_cons x t :
  has_sep (String x t)
  = (Ascii.eqb x ":" && match t with String y _ => Ascii.eqb y ":" | EmptyString => false end)
    || has_sep t.
Proof.
  destruct (Ascii.eqb_spec x ":") as [->|Hx]; [|by rewrite has_sep_step].
  destruct t as [|y r]; [reflexivity|].
  destruct (Ascii.eqb_spec y ":") as [->|Hy]; [reflexivity|].
  destruct y as [[] [] [] [] [] [] [] []]; try reflexivity. by destruct Hy.
Qed.

Lemma split_last_cons x t acc :
  split_last (String x t) acc
  = if Ascii.eqb x ":" && match t with String y _ => Ascii.eqb y ":" | EmptyString => false end
    then split_last (match t with String _ r => r | EmptyString => EmptyString end) EmptyString
    else split_last t (acc +:+ String x EmptyString).
Proof.
  destruct (Ascii.eqb_spec x ":") as [->|Hx]; [|by rewrite split_last_step].
  destruct t as [|y r]; [reflexivity|].
  destruct (Ascii.eqb_spec y ":") as [->|Hy]; [reflexivity|].
  destruct y as [[] [] [] [] [] [] [] []]; try reflexivity. by destruct Hy.
Qed.

Lemma has_sep_one x : has_sep (String x EmptyString) = false.
Proof. rewrite has_sep_cons. by rewrite andb_false_r. Qed.

(** one more character after text without ["::"] brings none, unless it is
    the second of two [':'] *)
Lemma has_sep_snoc a x y :
  has_sep (a +:+ String x EmptyString) = false →
  Ascii.eqb x ":" && Ascii.eqb y ":" = false →
  has_sep ((a +:+ String x EmptyString) +:+ String y EmptyString) = false.
Proof.
  intros Ha Hxy. induction a as [|z a IH].
  - change (has_sep (String x (String y EmptyString)) = false).
    by rewrite has_sep_cons, Hxy, has_sep_one.
  - change (has_sep (String z (a +:+ String x EmptyString)) = false) in Ha.
    change (has_sep (String z ((a +:+ String x EmptyString) +:+ String y EmptyString))
            = false).
    rewrite has_sep_cons in Ha. apply orb_false_elim in Ha as [Hz Ha].
    rewrite has_sep_cons, IH by done. rewrite orb_false_r.
    etrans; [|exact Hz]. by destruct a.
Qed.

(** what [split_last] keeps holds no ["::"], when what it has kept so far,
    with the next character, holds none *)
Lemma split_last_no_sep n s acc :
  String.length s ≤ n →
  has_sep (acc +:+ match s with
                   | String y _ => String y EmptyString
                   | EmptyString => EmptyString
                   end) = false →
  has_sep (split_last s acc) = false.
Proof.
  revert s acc. induction n as [|n IH]; intros s acc Hlen Hacc.
  - destruct s; [|simpl in Hlen; lia]. by rewrite string_app_nil_r in Hacc.
  - destruct s as [|x t]; [by rewrite string_app_nil_r in Hacc|].
    rewrite split_last_cons.
    destruct (Ascii.eqb x ":"
              && match t with String y _ => Ascii.eqb y ":" | EmptyString => false end)
      eqn:Hpair.
    + destruct t as [|y r]; [by rewrite andb_false_r in Hpair|].
      apply IH; [simpl in Hlen; lia|].
      destruct r as [|z r]; [done|]. apply has_sep_one.
    + apply IH; [simpl in Hlen; lia|].
      destruct t as [|y r]; [by rewrite string_app_nil_r|].
      by apply has_sep_snoc.
Qed.

(** X16: whatever the [TypeId], the type [list_objects] prints between the
    parentheses holds no ["::"]: it is the [TypeId] itself when that has
    none, and otherwise what follows its last ["::"]. *)
Theorem list_objects_prints_no_separator (o : FreeCAD.DocumentObject) :
  object_line o
  = "- " +:+ FreeCAD.obj_Label o +:+ " (" +:+ type_tag (FreeCAD.obj_TypeId o) +:+ ")"
  ∧ has_sep (type_tag (FreeCAD.obj_TypeId o)) = false.
Proof.
  split; [reflexivity|]. unfold type_tag.
  destruct (has_sep (FreeCAD.obj_TypeId o)) eqn:Hsep; [|done].
  apply (split_last_no_sep (String.length (FreeCAD.obj_TypeId o))); [done|].
  destruct (FreeCAD.obj_TypeId o) as [|y r]; [done|]. apply has_sep_one.
Qed.

(** ** The listener over any sequence of starts and stops *)

Section Tidy.
Variable can_listen : string → Z → bool.






End Tidy.



(** ** The registered tools that cannot fail *)

Section Plain.
Context `{PyRuntime} `{FreeCAD.Host}.




End Plain.


